(** * FVH-3T: trajectory construction from a QGIS point layer

    A shallow embedding of [fvh3t/core/trajectory.py] and
    [fvh3t/core/trajectory_layer.py], and the properties of trajectory
    construction, unit inference and layer validation proved over it.

    Python exceptions are an explicit [result]; the QGIS objects the code
    talks to (layer, fields, features, feature requests) are modelled by
    records and functions over lists. *)

From Stdlib Require Import ZArith QArith Qround List String Bool Lia.
From Stdlib Require Import Permutation Sorted.
Import ListNotations.

Local Open Scope string_scope.
Local Open Scope list_scope.
Local Open Scope Z_scope.

(** ** Exceptions and results *)

(** The exceptions the modelled code can raise.  [InvalidLayerException] is
    the class of [fvh3t/core/exceptions.py]; the others are Python built-ins. *)
Inductive exception : Type :=
| InvalidLayerException (msg : string)
| TypeError
| ValueError
| KeyError.

Inductive result (A : Type) : Type :=
| Ok (a : A)
| Raise (e : exception).

Arguments Ok {A} a.
Arguments Raise {A} e.

Definition bind {A B : Type} (r : result A) (k : A -> result B) : result B :=
  match r with
  | Ok a => k a
  | Raise e => Raise e
  end.

Notation "x <- r ;; k" := (bind r (fun x => k))
  (at level 61, r at next level, right associativity).

(** A [for] loop that builds a list with [append], stopping at the first
    exception. *)
Fixpoint for_each {A B : Type} (body : A -> result B) (l : list A)
  : result (list B) :=
  match l with
  | [] => Ok []
  | a :: l' =>
      b <- body a ;;
      bs <- for_each body l' ;;
      Ok (b :: bs)
  end.

(** ** The QGIS side *)

(** An attribute value.  [NULL] is the null [QVariant]; [Num q] is an integer
    or double value, as the rational it denotes.  Text attributes are not
    modelled. *)
Inductive QVariant : Type :=
| NULL
| Num (q : Q).

(** Python's [==] on attribute values: [NULL == NULL], numbers by value. *)
Definition QVariant_eqb (a b : QVariant) : bool :=
  match a, b with
  | NULL, NULL => true
  | Num p, Num q => Qeq_bool p q
  | _, _ => false
  end.

Record QgsPointXY : Type := { x : Q; y : Q }.

Inductive QgsGeometry : Type :=
| fromPolylineXY (polyline : list QgsPointXY).

Definition asPolyline (g : QgsGeometry) : list QgsPointXY :=
  match g with fromPolylineXY pts => pts end.

Inductive GeometryType : Type :=
| PointGeometry | LineGeometry | PolygonGeometry | UnknownGeometry | NullGeometry.

Inductive FeatureAvailability : Type :=
| NoFeaturesAvailable | FeaturesAvailable | FeaturesMaybeAvailable.

Inductive TemporalUnit : Type :=
| TemporalMilliseconds | TemporalSeconds | TemporalMinutes | TemporalHours
| TemporalDays | TemporalWeeks | TemporalMonths | TemporalYears
| TemporalDecades | TemporalCenturies | TemporalIrregularStep
| TemporalUnknownUnit.

Inductive DistanceUnit : Type :=
| DistanceMeters | DistanceKilometers | DistanceFeet | DistanceNauticalMiles
| DistanceYards | DistanceMiles | DistanceDegrees | DistanceCentimeters
| DistanceMillimeters | DistanceUnknownUnit.

Definition TemporalUnit_eqb (a b : TemporalUnit) : bool :=
  match a, b with
  | TemporalMilliseconds, TemporalMilliseconds
  | TemporalSeconds, TemporalSeconds
  | TemporalMinutes, TemporalMinutes
  | TemporalHours, TemporalHours
  | TemporalDays, TemporalDays
  | TemporalWeeks, TemporalWeeks
  | TemporalMonths, TemporalMonths
  | TemporalYears, TemporalYears
  | TemporalDecades, TemporalDecades
  | TemporalCenturies, TemporalCenturies
  | TemporalIrregularStep, TemporalIrregularStep
  | TemporalUnknownUnit, TemporalUnknownUnit => true
  | _, _ => false
  end.

Definition GeometryType_eqb (a b : GeometryType) : bool :=
  match a, b with
  | PointGeometry, PointGeometry
  | LineGeometry, LineGeometry
  | PolygonGeometry, PolygonGeometry
  | UnknownGeometry, UnknownGeometry
  | NullGeometry, NullGeometry => true
  | _, _ => false
  end.

Definition FeatureAvailability_eqb (a b : FeatureAvailability) : bool :=
  match a, b with
  | NoFeaturesAvailable, NoFeaturesAvailable
  | FeaturesAvailable, FeaturesAvailable
  | FeaturesMaybeAvailable, FeaturesMaybeAvailable => true
  | _, _ => false
  end.

(** A field of the layer: its name and [QgsField.displayType()]. *)
Record QgsField : Type := { name : string; displayType : string }.

(** A feature of a point layer: feature id, point geometry, attribute vector.
    QGIS keeps one attribute per field of the layer; an attribute vector
    shorter than the field list stands for trailing NULLs. *)
Record QgsFeature : Type := {
  id : Z;
  geometry : QgsPointXY;
  attributes : list QVariant
}.

Record QgsVectorLayer : Type := {
  isValid : bool;
  geometryType : GeometryType;
  fields : list QgsField;
  features : list QgsFeature;
  mapUnits : DistanceUnit
}.

(** [QgsVectorLayer.hasFeatures()]: whether the layer holds a feature. *)
Definition hasFeatures (layer : QgsVectorLayer) : FeatureAvailability :=
  match features layer with
  | [] => NoFeaturesAvailable
  | _ :: _ => FeaturesAvailable
  end.

(** [QgsFields.indexFromName] and [QgsFields.indexOf]: the index of the first
    field with exactly this name, [-1] when there is none. *)
Fixpoint indexFromName_at (i : Z) (fs : list QgsField) (field_name : string) : Z :=
  match fs with
  | [] => -1
  | f :: fs' =>
      if String.eqb (name f) field_name then i
      else indexFromName_at (i + 1) fs' field_name
  end.

Definition indexFromName (fs : list QgsField) (field_name : string) : Z :=
  indexFromName_at 0 fs field_name.

Definition indexOf := indexFromName.

(** [QgsFields.field(idx)]. *)
Definition field (fs : list QgsField) (idx : Z) : result QgsField :=
  if idx <? 0 then Raise KeyError
  else match nth_error fs (Z.to_nat idx) with
       | Some f => Ok f
       | None => Raise KeyError
       end.

(** [feature[idx]]: the attribute at a field index. *)
Definition getitem (f : QgsFeature) (idx : Z) : result QVariant :=
  if idx <? 0 then Raise KeyError
  else Ok (nth (Z.to_nat idx) (attributes f) NULL).

(** [feature.attribute(name)]: the attribute of the named field; [KeyError]
    when the feature has no such field. *)
Definition attribute (layer : QgsVectorLayer) (f : QgsFeature)
  (field_name : string) : result QVariant :=
  getitem f (indexFromName (fields layer) field_name).

(** [layer.getFeature(fid)]: the feature with this id, if any. *)
Definition getFeature (layer : QgsVectorLayer) (fid : Z) : option QgsFeature :=
  find (fun f => id f =? fid) (features layer).

(** [layer.uniqueValues(idx)]: the distinct values of one attribute.  Python
    receives a [set]; the model lists it in order of first occurrence. *)
Fixpoint distinct (l : list QVariant) : list QVariant :=
  match l with
  | [] => []
  | v :: l' => v :: filter (fun w => negb (QVariant_eqb v w)) (distinct l')
  end.

Definition attribute_at (idx : Z) (f : QgsFeature) : QVariant :=
  nth (Z.to_nat idx) (attributes f) NULL.

Definition uniqueValues (layer : QgsVectorLayer) (idx : Z) : list QVariant :=
  if (idx <? 0) || (Z.of_nat (List.length (fields layer)) <=? idx) then []
  else distinct (map (attribute_at idx) (features layer)).

(** *** Feature requests *)

(** The filter [QgsExpression(f'"{id_field}" = {identifier}')] on one feature.
    The column reference is resolved by name; the right-hand side is the
    identifier as Python prints it: a number literal, or [NULL] for a null
    value.  In QGIS expressions a comparison with NULL is NULL, so a request
    filtered by it selects nothing. *)
Definition expression_selects (layer : QgsVectorLayer) (id_field : string)
  (identifier : QVariant) (f : QgsFeature) : bool :=
  let idx := indexFromName (fields layer) id_field in
  if idx <? 0 then false
  else match attribute_at idx f, identifier with
       | Num p, Num q => Qeq_bool p q
       | _, _ => false
       end.

(** The key of [OrderByClause(timestamp_field, ascending=True)]. *)
Definition order_key (layer : QgsVectorLayer) (timestamp_field : string)
  (f : QgsFeature) : QVariant :=
  let idx := indexFromName (fields layer) timestamp_field in
  if idx <? 0 then NULL else attribute_at idx f.

(** Ascending order of keys; an ascending clause places NULLs last. *)
Definition variant_le (a b : QVariant) : bool :=
  match a, b with
  | _, NULL => true
  | NULL, Num _ => false
  | Num p, Num q => Qle_bool p q
  end.

Definition variant_lt (a b : QVariant) : bool := negb (variant_le b a).

(** The data provider that executes an ordered feature request: how it
    arranges the selected features by the key of the order-by clause. *)
Class FeatureOrdering : Type := {
  order_by : (QgsFeature -> QVariant) -> list QgsFeature -> list QgsFeature
}.

(** What an ordered feature request guarantees.  The code asks the source for
    ascending order by one clause and nothing more: the features come back
    rearranged, ascending in the key.  Where features with equal keys are
    placed is left to the provider. *)
Definition ordered_request (O : FeatureOrdering) : Prop :=
  forall key l,
    Permutation (order_by key l) l /\
    StronglySorted (fun a b => variant_le (key a) (key b) = true)
      (order_by key l).

(** [layer.getFeatures(request)] for the request built in
    [create_trajectories]: filter by the identifier expression, order by the
    timestamp field. *)
Definition getFeatures {O : FeatureOrdering} (layer : QgsVectorLayer)
  (id_field : string) (identifier : QVariant) (timestamp_field : string)
  : list QgsFeature :=
  order_by (order_key layer timestamp_field)
    (filter (expression_selects layer id_field identifier) (features layer)).

(** Insertion sort by key; [before a b] decides whether a new element with
    key [a] goes in front of one with key [b]. *)
Section InsertionSort.
Variable before : QVariant -> QVariant -> bool.
Variable key : QgsFeature -> QVariant.

Fixpoint insert (f : QgsFeature) (l : list QgsFeature) : list QgsFeature :=
  match l with
  | [] => [f]
  | g :: l' => if before (key f) (key g) then f :: g :: l' else g :: insert f l'
  end.

Fixpoint insertion_sort (l : list QgsFeature) : list QgsFeature :=
  match l with
  | [] => []
  | f :: l' => insert f (insertion_sort l')
  end.
End InsertionSort.

(** *** Memory layers *)

(** The type of a field added to a memory layer: [QVariant.Int] or
    [QVariant.Double]. *)
Inductive VariantType : Type :=
| QVariantInt
| QVariantDouble.

(** [QgsField(name, type)] *)
Record MemoryField : Type := { field_name : string; field_type : VariantType }.

(** A feature built with [QgsFeature(fields)], [setAttributes] and
    [setGeometry]. *)
Record MemoryFeature : Type := {
  memory_attributes : list QVariant;
  memory_geometry : QgsGeometry
}.

(** [QgsVectorLayer(uri, name, "memory")] and what has been added to it. *)
Record MemoryLayer : Type := {
  uri : string;
  layer_name : string;
  memory_fields : list MemoryField;
  memory_features : list MemoryFeature
}.

Definition new_memory_layer (uri name : string) : MemoryLayer :=
  {| uri := uri; layer_name := name; memory_fields := []; memory_features := [] |}.

(** [layer.addAttribute(field)] in an edit session that is committed. *)
Definition addAttribute (l : MemoryLayer) (f : MemoryField) : MemoryLayer :=
  {| uri := uri l; layer_name := layer_name l;
     memory_fields := memory_fields l ++ [f];
     memory_features := memory_features l |}.

(** [layer.addFeature(feature)] in an edit session that is committed. *)
Definition addFeature (l : MemoryLayer) (f : MemoryFeature) : MemoryLayer :=
  {| uri := uri l; layer_name := layer_name l;
     memory_fields := memory_fields l;
     memory_features := memory_features l ++ [f] |}.

(** [enumerate(l)], counting from [i]. *)
Fixpoint enumerate_from {A : Type} (i : Z) (l : list A) : list (Z * A) :=
  match l with
  | [] => []
  | a :: l' => (i, a) :: enumerate_from (i + 1) l'
  end.

(** ** Python values and built-ins *)

(** A [datetime] in UTC, as the instant it denotes: seconds after the epoch.
    The microsecond resolution of the stored value is not modelled. *)
Inductive datetime : Type :=
| utc_instant (posix : Q).

Definition posix (d : datetime) : Q := match d with utc_instant t => t end.

Definition datetime_le (a b : datetime) : Prop := (posix a <= posix b)%Q.

(** Rounding to the nearest integer, halves to the even neighbour. *)
Definition round_half_even (q : Q) : Z :=
  let f := Qfloor q in
  match Qcompare (q - inject_Z f) (1 # 2) with
  | Lt => f
  | Gt => f + 1
  | Eq => if Z.even f then f else f + 1
  end.

(** [datetime.min] and [datetime.max] in microseconds after the epoch:
    0001-01-01T00:00:00 and 9999-12-31T23:59:59.999999. *)
Definition MIN_MICROSECONDS : Z := -62135596800000000.
Definition MAX_MICROSECONDS : Z := 253402300799999999.

(** A timestamp in seconds that [datetime] can hold: rounded to microseconds
    it falls in the years 1 to 9999. *)
Definition representable (t : Q) : bool :=
  let us := round_half_even (t * 1000000) in
  (MIN_MICROSECONDS <=? us) && (us <=? MAX_MICROSECONDS).

(** [datetime.fromtimestamp(timestamp, tz=timezone.utc)], as on a POSIX
    platform: [TypeError] for a value that is no number, and an error for a
    number outside the range of [datetime] ([ValueError], year out of range;
    the model does not tell it from the [OverflowError] that replaces it
    beyond the platform's [time_t]). *)
Definition datetime_fromtimestamp (timestamp : QVariant) : result datetime :=
  match timestamp with
  | NULL => Raise TypeError
  | Num t => if representable t then Ok (utc_instant t) else Raise ValueError
  end.

(** [value / d] for a number [d]; NULL has no division. *)
Definition truediv (value : QVariant) (d : Q) : result QVariant :=
  match value with
  | NULL => Raise TypeError
  | Num q => Ok (Num (q / d)%Q)
  end.

(** [int(value)]: truncation toward zero. *)
Definition int (value : QVariant) : result Z :=
  match value with
  | NULL => Raise TypeError
  | Num q => Ok (Z.quot (Qnum q) (Z.pos (Qden q)))
  end.

(** [int(math.log10(num))].  [math.log10] raises [ValueError] (math domain
    error) unless [num] is positive; on a positive [num] the integer part of
    the logarithm is computed exactly, by counting divisions by ten.  The
    rounding of the double that [math.log10] returns is not modelled. *)
Fixpoint log10_floor (fuel : nat) (num : Z) : Z :=
  match fuel with
  | O => 0
  | S fuel' => if num <? 10 then 0 else 1 + log10_floor fuel' (num / 10)
  end.

Definition int_log10 (num : Z) : result Z :=
  if num <=? 0 then Raise ValueError
  else Ok (log10_floor (Z.to_nat (Z.log2 num)) num).

(** ** fvh3t/core/trajectory.py *)
Module trajectory.

Record TrajectoryNode : Type := {
  point : QgsPointXY;
  timestamp : Z
}.

Definition from_coordinates (x y : Q) (timestamp : Z) : TrajectoryNode :=
  {| point := {| x := x; y := y |}; timestamp := timestamp |}.

Record Trajectory : Type := { nodes : list TrajectoryNode }.

(** [Trajectory.__init__(self, nodes)] *)
Definition init (nodes : list TrajectoryNode) : Trajectory :=
  {| nodes := nodes |}.

Definition as_geometry (self : Trajectory) : QgsGeometry :=
  fromPolylineXY (map point (nodes self)).

Definition average_speed (self : Trajectory) : Q := 0%Q.

(** [TrajectoryLayer.is_valid] of this module; [trajectory_layer.py] has a
    class of the same name with more checks. *)
Definition is_valid (layer : QgsVectorLayer) (id_field timestamp_field : string)
  : bool :=
  let is_point_layer := GeometryType_eqb (geometryType layer) PointGeometry in
  let id_field_exists := negb (indexFromName (fields layer) id_field =? -1) in
  let timestamp_field_exists :=
    negb (indexFromName (fields layer) timestamp_field =? -1) in
  is_point_layer && id_field_exists && timestamp_field_exists.

End trajectory.

(** ** fvh3t/core/trajectory_layer.py *)
Module trajectory_layer.

Definition UNIX_TIMESTAMP_UNIT_THRESHOLD : Z := 13.

Definition digits_in_timestamp_int (num : Z) : result Z :=
  l <- int_log10 num ;;
  Ok (l + 1).

(** The attributes of a [TrajectoryLayer] object, its trajectories apart.
    This is also what a trajectory's reference to its layer gives access
    to. *)
Record attrs : Type := {
  layer : QgsVectorLayer;
  id_field : string;
  timestamp_field : string;
  width_field : string;
  length_field : string;
  height_field : string;
  map_units : DistanceUnit;
  timestamp_units : TemporalUnit
}.

Definition set_map_units (self : attrs) (u : DistanceUnit) : attrs :=
  {| layer := layer self; id_field := id_field self;
     timestamp_field := timestamp_field self;
     width_field := width_field self; length_field := length_field self;
     height_field := height_field self;
     map_units := u; timestamp_units := timestamp_units self |}.

Definition set_timestamp_units (self : attrs) (u : TemporalUnit) : attrs :=
  {| layer := layer self; id_field := id_field self;
     timestamp_field := timestamp_field self;
     width_field := width_field self; length_field := length_field self;
     height_field := height_field self;
     map_units := map_units self; timestamp_units := u |}.

(** [from fvh3t.core.trajectory import Trajectory, TrajectoryNode], as this
    module calls the two classes: [TrajectoryNode] with five positional
    arguments (line 152), [Trajectory] with the node tuple and [self]
    (line 155). *)
Class imports : Type := {
  TrajectoryNode : Type;
  Trajectory : Type;
  TrajectoryNode_new :
    QgsPointXY -> datetime -> QVariant -> QVariant -> QVariant ->
    result TrajectoryNode;
  Trajectory_new : list TrajectoryNode -> attrs -> result Trajectory
}.

Section TrajectoryLayer.
Context {O : FeatureOrdering} {I : imports}.

Record TrajectoryLayer : Type := {
  self_attrs : attrs;
  trajectories : list Trajectory
}.

Definition is_field_valid (self : attrs) (field_name : string)
  (accepted_types : list string) : result bool :=
  let field_id := indexFromName (fields (layer self)) field_name in
  if field_id =? -1 then Ok false
  else match accepted_types with
       | [] => Ok true
       | _ :: _ =>
           field <- field (fields (layer self)) field_id ;;
           let field_type := displayType field in
           Ok (existsb (String.eqb field_type) accepted_types)
       end.

(** [if not self.is_field_valid(...): raise InvalidLayerException(msg)] *)
Definition require_field (self : attrs) (field_name : string)
  (accepted_types : list string) (msg : string) : result unit :=
  ok <- is_field_valid self field_name accepted_types ;;
  if negb ok then Raise (InvalidLayerException msg) else Ok tt.

Definition is_valid (self : attrs) : result bool :=
  let is_layer_valid := isValid (layer self) in
  if negb is_layer_valid then
    Raise (InvalidLayerException "Layer is not valid.")
  else
  let is_point_layer :=
    GeometryType_eqb (geometryType (layer self)) PointGeometry in
  if negb is_point_layer then
    Raise (InvalidLayerException "Layer is not a point layer.")
  else
  let has_features :=
    FeatureAvailability_eqb (hasFeatures (layer self)) FeaturesAvailable in
  if negb has_features then
    Raise (InvalidLayerException "Layer has no features.")
  else
  _ <- require_field self (id_field self) []
         "Id field either not found or of incorrect type." ;;
  _ <- require_field self (timestamp_field self) ["integer"; "double"]
         "Timestamp field either not found or of incorrect type." ;;
  _ <- require_field self (width_field self) ["integer"; "double"]
         "Width field either not found or of incorrect type." ;;
  _ <- require_field self (length_field self) ["integer"; "double"]
         "Length field either not found or of incorrect type." ;;
  _ <- require_field self (height_field self) ["integer"; "double"]
         "Height field either not found or of incorrect type." ;;
  Ok true.

(** The body of the inner loop of [create_trajectories] (lines 142-153). *)
Definition node_of (self : attrs)
  (timestamp_field_idx width_field_idx length_field_idx height_field_idx : Z)
  (feature : QgsFeature) : result TrajectoryNode :=
  let point := geometry feature in
  timestamp <- getitem feature timestamp_field_idx ;;
  width <- getitem feature width_field_idx ;;
  length <- getitem feature length_field_idx ;;
  height <- getitem feature height_field_idx ;;
  timestamp <-
    (if TemporalUnit_eqb (timestamp_units self) TemporalMilliseconds
     then truediv timestamp 1000
     else Ok timestamp) ;;
  t <- datetime_fromtimestamp timestamp ;;
  TrajectoryNode_new point t width length height.

(** The body of the outer loop (lines 129-155). *)
Definition trajectory_of (self : attrs)
  (timestamp_field_idx width_field_idx length_field_idx height_field_idx : Z)
  (identifier : QVariant) : result Trajectory :=
  let features :=
    getFeatures (layer self) (id_field self) identifier
      (timestamp_field self) in
  nodes <- for_each
             (node_of self timestamp_field_idx width_field_idx
                length_field_idx height_field_idx)
             features ;;
  Trajectory_new nodes self.

(** Returns the value assigned to [self.__trajectories]. *)
Definition create_trajectories (self : attrs) : result (list Trajectory) :=
  let id_field_idx := indexOf (fields (layer self)) (id_field self) in
  let timestamp_field_idx :=
    indexOf (fields (layer self)) (timestamp_field self) in
  let width_field_idx := indexOf (fields (layer self)) (width_field self) in
  let length_field_idx := indexOf (fields (layer self)) (length_field self) in
  let height_field_idx := indexOf (fields (layer self)) (height_field self) in
  let unique_ids := uniqueValues (layer self) id_field_idx in
  for_each
    (trajectory_of self timestamp_field_idx width_field_idx
       length_field_idx height_field_idx)
    unique_ids.

(** [first_feature.attribute(name)] on the result of [getFeature]; a
    feature id that is not in the layer gives a feature without fields,
    whose attribute lookup by name raises [KeyError]. *)
Definition first_feature_attribute (layer : QgsVectorLayer)
  (first_feature : option QgsFeature) (field_name : string)
  : result QVariant :=
  match first_feature with
  | None => Raise KeyError
  | Some f => attribute layer f field_name
  end.

(** Lines 68-80: the timestamp unit after construction. *)
Definition resolve_timestamp_units (self : attrs) : result attrs :=
  if TemporalUnit_eqb (timestamp_units self) TemporalUnknownUnit then
    let first_feature := getFeature (layer self) 1 in
    timestamp <- first_feature_attribute (layer self) first_feature
                   (timestamp_field self) ;;
    num <- int timestamp ;;
    digits <- digits_in_timestamp_int num ;;
    if UNIX_TIMESTAMP_UNIT_THRESHOLD <=? digits
    then Ok (set_timestamp_units self TemporalMilliseconds)
    else Ok (set_timestamp_units self TemporalSeconds)
  else Ok self.

(** [TrajectoryLayer.__init__] *)
Definition init (layer : QgsVectorLayer)
  (id_field timestamp_field width_field length_field height_field : string)
  (timestamp_unit : TemporalUnit) : result TrajectoryLayer :=
  let self :=
    {| layer := layer; id_field := id_field;
       timestamp_field := timestamp_field; width_field := width_field;
       length_field := length_field; height_field := height_field;
       map_units := DistanceUnknownUnit;
       timestamp_units := timestamp_unit |} in
  valid <- is_valid self ;;
  self <- (if valid : bool then
             resolve_timestamp_units
               (set_map_units self (mapUnits layer))
           else Ok self) ;;
  trajectories <- create_trajectories self ;;
  Ok {| self_attrs := self; trajectories := trajectories |}.

End TrajectoryLayer.

Arguments TrajectoryLayer {I}.

(** [TrajectoryLayer.as_line_layer]: reads [self.__trajectories] only.  The
    trajectories are those of [fvh3t.core.trajectory], whose [average_speed]
    and [as_geometry] it calls. *)
Definition as_line_layer (trajectories : list trajectory.Trajectory)
  : MemoryLayer :=
  let line_layer := new_memory_layer "LineString?crs=3067" "Line Layer" in
  let line_layer :=
    addAttribute line_layer
      {| field_name := "fid"; field_type := QVariantInt |} in
  let line_layer :=
    addAttribute line_layer
      {| field_name := "average_speed"; field_type := QVariantDouble |} in
  fold_left
    (fun line_layer (it : Z * trajectory.Trajectory) =>
       let (i, trajectory) := it in
       let feature :=
         {| memory_attributes :=
              [Num (inject_Z i); Num (trajectory.average_speed trajectory)];
            memory_geometry := trajectory.as_geometry trajectory |} in
       addFeature line_layer feature)
    (enumerate_from 0 trajectories) line_layer.

End trajectory_layer.

(** ** Two data providers *)

(** A provider whose sort keeps features with equal keys in their stored
    order. *)
Definition stable_provider : FeatureOrdering :=
  {| order_by := insertion_sort variant_le |}.

(** A provider whose sort places a feature after the features of equal key
    that follow it in the layer. *)
Definition reversing_provider : FeatureOrdering :=
  {| order_by := insertion_sort variant_lt |}.

(** ** The two shapes of [Trajectory] and [TrajectoryNode] *)

(** The classes as [fvh3t/core/trajectory.py] declares them.  [TrajectoryNode]
    is a [NamedTuple] with the two fields [point] and [timestamp], and
    [Trajectory.__init__] takes the nodes only; Python rejects a call with
    more positional arguments with [TypeError] before any object is built. *)
Definition trajectory_py : trajectory_layer.imports :=
  {| trajectory_layer.TrajectoryNode := trajectory.TrajectoryNode;
     trajectory_layer.Trajectory := trajectory.Trajectory;
     trajectory_layer.TrajectoryNode_new := fun _ _ _ _ _ => Raise TypeError;
     trajectory_layer.Trajectory_new := fun _ _ => Raise TypeError |}.

(** Modelled from the spec: the [TrajectoryNode] with position, timestamp,
    width, length and height, and the [Trajectory] that keeps a reference to
    its source next to its nodes.  These are the classes the calls in
    [create_trajectories] are written for; [fvh3t/core/trajectory.py]
    declares the narrower ones of [Module trajectory]. *)
Module trajectory_spec.

Record TrajectoryNode : Type := {
  point : QgsPointXY;
  timestamp : datetime;
  width : QVariant;
  length : QVariant;
  height : QVariant
}.

Record Trajectory : Type := {
  nodes : list TrajectoryNode;
  layer : trajectory_layer.attrs
}.

Definition as_geometry (self : Trajectory) : QgsGeometry :=
  fromPolylineXY (map point (nodes self)).

Definition classes : trajectory_layer.imports :=
  {| trajectory_layer.TrajectoryNode := TrajectoryNode;
     trajectory_layer.Trajectory := Trajectory;
     trajectory_layer.TrajectoryNode_new := fun p t w l h =>
       Ok {| point := p; timestamp := t; width := w; length := l; height := h |};
     trajectory_layer.Trajectory_new := fun nodes self =>
       Ok {| nodes := nodes; layer := self |} |}.

End trajectory_spec.

(** ** Sample layers *)

Definition sample_fields : list QgsField :=
  [ {| name := "id"; displayType := "integer" |};
    {| name := "timestamp"; displayType := "integer" |};
    {| name := "width"; displayType := "double" |};
    {| name := "length"; displayType := "double" |};
    {| name := "height"; displayType := "double" |} ].

Definition pt (a b : Z) : QgsPointXY := {| x := inject_Z a; y := inject_Z b |}.

Definition sample_feature (fid : Z) (p : QgsPointXY) (ident timestamp : QVariant)
  : QgsFeature :=
  {| id := fid; geometry := p;
     attributes := [ident; timestamp; Num (3 # 2); Num (9 # 2); Num (7 # 4)] |}.

Definition point_layer (fs : list QgsFeature) : QgsVectorLayer :=
  {| isValid := true; geometryType := PointGeometry; fields := sample_fields;
     features := fs; mapUnits := DistanceMeters |}.

Definition sample_init {O : FeatureOrdering} {I : trajectory_layer.imports}
  (layer : QgsVectorLayer) (unit : TemporalUnit)
  : result trajectory_layer.TrajectoryLayer :=
  trajectory_layer.init layer "id" "timestamp" "width" "length" "height" unit.

(** Two objects, three observations, timestamps in seconds. *)
Definition layer_seconds : QgsVectorLayer :=
  point_layer
    [ sample_feature 1 (pt 0 0) (Num 7) (Num 1700000020);
      sample_feature 2 (pt 5 5) (Num 8) (Num 1700000000);
      sample_feature 3 (pt 1 0) (Num 7) (Num 1700000010) ].

(** One observation with a 13-digit timestamp. *)
Definition layer_millis : QgsVectorLayer :=
  point_layer [ sample_feature 1 (pt 0 0) (Num 7) (Num 1700000000000) ].

(** One observation with a 10-digit timestamp. *)
Definition layer_ten_digits : QgsVectorLayer :=
  point_layer [ sample_feature 1 (pt 0 0) (Num 7) (Num 1700000000) ].

(** One observation whose timestamp is negative, thirteen digits long. *)
Definition layer_negative : QgsVectorLayer :=
  point_layer [ sample_feature 1 (pt 0 0) (Num 7) (Num (-1700000000000)) ].

(** One observation whose identifier is NULL. *)
Definition layer_null_id : QgsVectorLayer :=
  point_layer [ sample_feature 1 (pt 0 0) NULL (Num 1700000000) ].

(** Two observations of one object at the same instant. *)
Definition layer_tie : QgsVectorLayer :=
  point_layer
    [ sample_feature 1 (pt 0 0) (Num 7) (Num 1700000000);
      sample_feature 2 (pt 1 1) (Num 7) (Num 1700000000) ].

(** One observation with an identifier and one whose identifier is NULL. *)
Definition layer_one_null_id : QgsVectorLayer :=
  point_layer
    [ sample_feature 1 (pt 0 0) (Num 7) (Num 1700000000);
      sample_feature 2 (pt 3 4) NULL (Num 1700000005) ].

(** One observation whose timestamp is NULL. *)
Definition layer_null_timestamp : QgsVectorLayer :=
  point_layer [ sample_feature 1 (pt 0 0) (Num 7) NULL ].

(** One observation with a 16-digit timestamp (microseconds). *)
Definition layer_microseconds : QgsVectorLayer :=
  point_layer [ sample_feature 1 (pt 0 0) (Num 7) (Num 1700000000000000) ].

(** A line layer with the sample fields and one feature. *)
Definition line_layer : QgsVectorLayer :=
  {| isValid := true; geometryType := LineGeometry; fields := sample_fields;
     features := [ sample_feature 1 (pt 0 0) (Num 7) (Num 1700000000) ];
     mapUnits := DistanceMeters |}.

(** A line layer without features: the geometry check comes before the
    feature check. *)
Definition empty_line_layer : QgsVectorLayer :=
  {| isValid := true; geometryType := LineGeometry; fields := sample_fields;
     features := []; mapUnits := DistanceMeters |}.

(** A layer whose only feature has id 5 and a timestamp of zero. *)
Definition layer_without_first : QgsVectorLayer :=
  point_layer [ sample_feature 5 (pt 2 3) (Num 7) (Num 0) ].

(** One observation whose timestamp is a half. *)
Definition layer_fraction : QgsVectorLayer :=
  point_layer [ sample_feature 1 (pt 0 0) (Num 7) (Num (1 # 2)) ].

(** ** Vocabulary of the properties *)

(** The object at the start of [__init__], before validation. *)
Definition initial_attrs (layer : QgsVectorLayer)
  (id_field timestamp_field width_field length_field height_field : string)
  (timestamp_unit : TemporalUnit) : trajectory_layer.attrs :=
  {| trajectory_layer.layer := layer;
     trajectory_layer.id_field := id_field;
     trajectory_layer.timestamp_field := timestamp_field;
     trajectory_layer.width_field := width_field;
     trajectory_layer.length_field := length_field;
     trajectory_layer.height_field := height_field;
     trajectory_layer.map_units := DistanceUnknownUnit;
     trajectory_layer.timestamp_units := timestamp_unit |}.

Definition sample_attrs (layer : QgsVectorLayer) (unit : TemporalUnit)
  : trajectory_layer.attrs :=
  trajectory_layer.set_map_units
    (initial_attrs layer "id" "timestamp" "width" "length" "height" unit)
    (mapUnits layer).

(** [d] is the number of decimal digits of the positive integer [n]. *)
Definition has_decimal_digits (n d : Z) : Prop :=
  10 ^ (d - 1) <= n < 10 ^ d.

(** [f] is the field that the name [n] denotes in the layer: the first one
    with that name. *)
Definition field_named (layer : QgsVectorLayer) (n : string) (f : QgsField)
  : Prop :=
  exists pre post,
    fields layer = pre ++ f :: post /\ name f = n /\
    forall g, In g pre -> name g <> n.

Definition has_field (layer : QgsVectorLayer) (n : string) : Prop :=
  exists f, In f (fields layer) /\ name f = n.

(** The named field exists and its type is integer or double. *)
Definition numeric_field (layer : QgsVectorLayer) (n : string) : Prop :=
  exists f, field_named layer n f /\
            (displayType f = "integer" \/ displayType f = "double").

(** What a successful [is_valid] has checked. *)
Record validated (self : trajectory_layer.attrs) : Prop := {
  v_layer : isValid (trajectory_layer.layer self) = true;
  v_point : geometryType (trajectory_layer.layer self) = PointGeometry;
  v_features : features (trajectory_layer.layer self) <> [];
  v_id :
    trajectory_layer.is_field_valid self
      (trajectory_layer.id_field self) [] = Ok true;
  v_timestamp :
    trajectory_layer.is_field_valid self
      (trajectory_layer.timestamp_field self) ["integer"; "double"] = Ok true;
  v_width :
    trajectory_layer.is_field_valid self
      (trajectory_layer.width_field self) ["integer"; "double"] = Ok true;
  v_length :
    trajectory_layer.is_field_valid self
      (trajectory_layer.length_field self) ["integer"; "double"] = Ok true;
  v_height :
    trajectory_layer.is_field_valid self
      (trajectory_layer.height_field self) ["integer"; "double"] = Ok true
}.

(** The timestamp, in seconds after the epoch, stored for a raw value. *)
Definition stored_posix (unit : TemporalUnit) (raw : Q) : Q :=
  if TemporalUnit_eqb unit TemporalMilliseconds then (raw / 1000)%Q else raw.

(** The attribute indexes [create_trajectories] looks up. *)
Definition timestamp_idx (self : trajectory_layer.attrs) : Z :=
  indexOf (fields (trajectory_layer.layer self))
    (trajectory_layer.timestamp_field self).
Definition width_idx (self : trajectory_layer.attrs) : Z :=
  indexOf (fields (trajectory_layer.layer self))
    (trajectory_layer.width_field self).
Definition length_idx (self : trajectory_layer.attrs) : Z :=
  indexOf (fields (trajectory_layer.layer self))
    (trajectory_layer.length_field self).
Definition height_idx (self : trajectory_layer.attrs) : Z :=
  indexOf (fields (trajectory_layer.layer self))
    (trajectory_layer.height_field self).
Definition id_idx (self : trajectory_layer.attrs) : Z :=
  indexOf (fields (trajectory_layer.layer self))
    (trajectory_layer.id_field self).

(** The node is the one built from this feature: position from its geometry,
    timestamp from its raw timestamp, dimensions from its attributes. *)
Definition node_built_from (self : trajectory_layer.attrs) (f : QgsFeature)
  (n : trajectory_spec.TrajectoryNode) : Prop :=
  exists raw,
    getitem f (timestamp_idx self) = Ok (Num raw) /\
    n = {| trajectory_spec.point := geometry f;
           trajectory_spec.timestamp :=
             utc_instant (stored_posix (trajectory_layer.timestamp_units self) raw);
           trajectory_spec.width := attribute_at (width_idx self) f;
           trajectory_spec.length := attribute_at (length_idx self) f;
           trajectory_spec.height := attribute_at (height_idx self) f |}.

(** The features the request for one identifier returns. *)
Definition selected {O : FeatureOrdering} (self : trajectory_layer.attrs)
  (identifier : QVariant) : list QgsFeature :=
  getFeatures (trajectory_layer.layer self) (trajectory_layer.id_field self)
    identifier (trajectory_layer.timestamp_field self).

(** The records of the layer whose identifier equals [v]. *)
Definition records_with_id (self : trajectory_layer.attrs) (v : QVariant)
  : list QgsFeature :=
  filter (fun f => QVariant_eqb (attribute_at (id_idx self) f) v)
    (features (trajectory_layer.layer self)).

(** The record has an identifier, and a timestamp that, in seconds, lies in
    the range of [datetime]. *)
Definition well_formed_record (self : trajectory_layer.attrs) (f : QgsFeature)
  : Prop :=
  attribute_at (id_idx self) f <> NULL /\
  exists raw,
    attribute_at (timestamp_idx self) f = Num raw /\
    representable (stored_posix (trajectory_layer.timestamp_units self) raw)
    = true.

(** Features with equal keys are in the same relative order in [output] as
    in [input]. *)
Definition keeps_tie_order (key : QgsFeature -> QVariant)
  (input output : list QgsFeature) : Prop :=
  forall k,
    filter (fun f => QVariant_eqb (key f) k) output
    = filter (fun f => QVariant_eqb (key f) k) input.

(** The records the request for [v] selects, in the order of the layer. *)
Definition matching (self : trajectory_layer.attrs) (v : QVariant)
  : list QgsFeature :=
  filter
    (expression_selects (trajectory_layer.layer self)
       (trajectory_layer.id_field self) v)
    (features (trajectory_layer.layer self)).

Definition nonempty {A : Type} (l : list A) : bool :=
  match l with [] => false | _ :: _ => true end.

(** The trajectories group the records by identifier: the identifiers
    considered are pairwise different, they are exactly the values present in
    the identifier field, there is one trajectory for each, and its nodes are
    built from exactly the records with that identifier. *)
Definition grouped_by_identifier (self : trajectory_layer.attrs)
  (trajs : list trajectory_spec.Trajectory) : Prop :=
  let ids := uniqueValues (trajectory_layer.layer self) (id_idx self) in
  ForallOrdPairs (fun a b => QVariant_eqb a b = false) ids /\
  (forall f, In f (features (trajectory_layer.layer self)) ->
     exists v, In v ids /\ QVariant_eqb v (attribute_at (id_idx self) f) = true) /\
  (forall v, In v ids ->
     exists f, In f (features (trajectory_layer.layer self)) /\
               attribute_at (id_idx self) f = v) /\
  Forall2
    (fun v t =>
       exists recs,
         Permutation recs (records_with_id self v) /\
         Forall2 (node_built_from self) recs (trajectory_spec.nodes t))
    ids trajs.

(** The record has an identifier (its identifier attribute is not NULL). *)
Definition identified (self : trajectory_layer.attrs) (f : QgsFeature) : bool :=
  match attribute_at (id_idx self) f with
  | NULL => false
  | Num _ => true
  end.

(** *** Four claims as they are worded *)

(** C1 as worded: every source that passes validation gets its records
    grouped by identifier. *)
Definition C1_as_worded : Prop :=
  forall (O : FeatureOrdering) (self : trajectory_layer.attrs),
    ordered_request O ->
    trajectory_layer.is_valid self = Ok true ->
    exists trajs,
      trajectory_layer.create_trajectories (I := trajectory_spec.classes) self
      = Ok trajs /\
      grouped_by_identifier self trajs.

(** C2 as worded: timestamps are non-decreasing and records with equal
    timestamps keep the relative order they have in the layer. *)
Definition C2_as_worded : Prop :=
  forall (O : FeatureOrdering) (self : trajectory_layer.attrs)
         (trajs : list trajectory_spec.Trajectory),
    ordered_request O ->
    trajectory_layer.create_trajectories (I := trajectory_spec.classes) self
    = Ok trajs ->
    Forall2
      (fun v t =>
         Sorted datetime_le
           (map trajectory_spec.timestamp (trajectory_spec.nodes t)) /\
         map trajectory_spec.point (trajectory_spec.nodes t)
         = map geometry (selected self v) /\
         keeps_tie_order
           (order_key (trajectory_layer.layer self)
              (trajectory_layer.timestamp_field self))
           (matching self v) (selected self v))
      (uniqueValues (trajectory_layer.layer self) (id_idx self)) trajs.

(** C3 as worded: the unit follows the digit count of the absolute value of
    the integer part of the first timestamp. *)
Definition C3_as_worded : Prop :=
  forall (self : trajectory_layer.attrs) (f : QgsFeature) (v : QVariant) (n : Z),
    trajectory_layer.timestamp_units self = TemporalUnknownUnit ->
    getFeature (trajectory_layer.layer self) 1 = Some f ->
    attribute (trajectory_layer.layer self) f
      (trajectory_layer.timestamp_field self) = Ok v ->
    int v = Ok n ->
    n <> 0 ->
    exists d,
      has_decimal_digits (Z.abs n) d /\
      trajectory_layer.resolve_timestamp_units self
      = Ok (trajectory_layer.set_timestamp_units self
              (if 13 <=? d then TemporalMilliseconds else TemporalSeconds)).

(** C6 as worded: an identifier whose selection is empty gets no trajectory,
    and no returned trajectory is without nodes. *)
Definition C6_as_worded : Prop :=
  forall (O : FeatureOrdering) (self : trajectory_layer.attrs)
         (trajs : list trajectory_spec.Trajectory),
    ordered_request O ->
    trajectory_layer.create_trajectories (I := trajectory_spec.classes) self
    = Ok trajs ->
    List.length trajs
    = List.length
        (filter (fun v => nonempty (selected self v))
           (uniqueValues (trajectory_layer.layer self) (id_idx self))) /\
    Forall (fun t => trajectory_spec.nodes t <> []) trajs.

(** ** Properties *)

(** *** The two providers answer an ordered request *)

Lemma variant_le_trans (a b c : QVariant) :
  variant_le a b = true -> variant_le b c = true -> variant_le a c = true.
Proof.
  destruct a as [|p], b as [|q], c as [|r]; simpl; try congruence; intros H1 H2.
  apply Qle_bool_iff in H1, H2. apply Qle_bool_iff.
  eapply Qle_trans; eassumption.
Qed.

Lemma variant_le_total (a b : QVariant) :
  variant_le a b = false -> variant_le b a = true.
Proof.
  destruct a as [|p], b as [|q]; simpl; try congruence; intros H.
  apply Qle_bool_iff. apply Qlt_le_weak. apply Qnot_le_lt.
  intros Hle. apply Qle_bool_iff in Hle. congruence.
Qed.

Lemma variant_lt_le (a b : QVariant) :
  variant_lt a b = true -> variant_le a b = true.
Proof.
  unfold variant_lt. intros H. apply variant_le_total.
  now apply negb_true_iff in H.
Qed.

Lemma variant_lt_false (a b : QVariant) :
  variant_lt a b = false -> variant_le b a = true.
Proof.
  unfold variant_lt. intros H. now apply negb_false_iff in H.
Qed.

Section InsertionSortFacts.
Variable before : QVariant -> QVariant -> bool.
Variable key : QgsFeature -> QVariant.
Hypothesis before_le : forall a b, before a b = true -> variant_le a b = true.
Hypothesis before_ge : forall a b, before a b = false -> variant_le b a = true.

Let R (a b : QgsFeature) : Prop := variant_le (key a) (key b) = true.

Lemma insert_perm (f : QgsFeature) (l : list QgsFeature) :
  Permutation (insert before key f l) (f :: l).
Proof.
  induction l as [|g l IH]; simpl.
  - apply Permutation_refl.
  - destruct (before (key f) (key g)).
    + apply Permutation_refl.
    + eapply Permutation_trans; [apply perm_skip, IH | apply perm_swap].
Qed.

Lemma insertion_sort_perm (l : list QgsFeature) :
  Permutation (insertion_sort before key l) l.
Proof.
  induction l as [|f l IH]; simpl.
  - apply perm_nil.
  - eapply Permutation_trans; [apply insert_perm | apply perm_skip, IH].
Qed.

Lemma insert_sorted (f : QgsFeature) (l : list QgsFeature) :
  StronglySorted R l -> StronglySorted R (insert before key f l).
Proof.
  induction l as [|g l IH]; simpl; intros Hs.
  - constructor; [constructor | constructor].
  - inversion Hs as [|? ? Hl Hg]; subst.
    destruct (before (key f) (key g)) eqn:Hb.
    + constructor; [assumption|].
      constructor.
      * now apply before_le.
      * eapply Forall_impl; [|exact Hg].
        intros h Hh. unfold R in *.
        eapply variant_le_trans; [apply before_le, Hb | exact Hh].
    + constructor; [now apply IH|].
      eapply Permutation_Forall; [apply Permutation_sym, insert_perm|].
      constructor; [now apply before_ge | assumption].
Qed.

Lemma insertion_sort_sorted (l : list QgsFeature) :
  StronglySorted R (insertion_sort before key l).
Proof.
  induction l as [|f l IH]; simpl.
  - constructor.
  - now apply insert_sorted.
Qed.
End InsertionSortFacts.

Lemma stable_provider_ordered : ordered_request stable_provider.
Proof.
  intros key l. split.
  - apply insertion_sort_perm.
  - apply insertion_sort_sorted; [auto | apply variant_le_total].
Qed.

Lemma reversing_provider_ordered : ordered_request reversing_provider.
Proof.
  intros key l. split.
  - apply insertion_sort_perm.
  - apply insertion_sort_sorted; [apply variant_lt_le | apply variant_lt_false].
Qed.

(** *** The result monad and the loops *)

Lemma bind_ok_inv {A B : Type} (r : result A) (k : A -> result B) (b : B) :
  bind r k = Ok b -> exists a, r = Ok a /\ k a = Ok b.
Proof.
  destruct r as [a|e]; simpl; intros H; [eauto | discriminate].
Qed.

Lemma for_each_ok_inv {A B : Type} (body : A -> result B) (l : list A) :
  forall bs, for_each body l = Ok bs -> Forall2 (fun a b => body a = Ok b) l bs.
Proof.
  induction l as [|a l IH]; simpl; intros bs H.
  - injection H as <-. constructor.
  - apply bind_ok_inv in H as (b & Hb & H).
    apply bind_ok_inv in H as (bs' & Hbs & H).
    injection H as <-. constructor; auto.
Qed.

Lemma for_each_ok_intro {A B : Type} (body : A -> result B) (l : list A) :
  forall bs, Forall2 (fun a b => body a = Ok b) l bs -> for_each body l = Ok bs.
Proof.
  induction 1 as [|a b l bs Hab _ IH]; simpl.
  - reflexivity.
  - rewrite Hab. simpl. rewrite IH. reflexivity.
Qed.

Lemma for_each_total {A B : Type} (body : A -> result B) (l : list A) :
  (forall a, In a l -> exists b, body a = Ok b) ->
  exists bs, for_each body l = Ok bs.
Proof.
  induction l as [|a l IH]; simpl; intros H.
  - eauto.
  - destruct (H a (or_introl eq_refl)) as (b & Hb).
    destruct IH as (bs & Hbs); [intros; apply H; now right|].
    exists (b :: bs). rewrite Hb. simpl. rewrite Hbs. reflexivity.
Qed.

(** *** The digit count *)

Lemma log10_floor_spec (fuel : nat) :
  forall n, 1 <= n < 2 ^ (Z.of_nat fuel + 1) ->
  0 <= log10_floor fuel n /\
  10 ^ log10_floor fuel n <= n < 10 ^ (log10_floor fuel n + 1).
Proof.
  induction fuel as [|fuel IH]; intros n Hn.
  - simpl in *. change (2 ^ 1) with 2 in Hn. assert (n = 1) by lia. subst.
    split; [lia|]. split; [reflexivity | reflexivity].
  - cbn [log10_floor]. destruct (n <? 10) eqn:Hlt.
    + apply Z.ltb_lt in Hlt. split; [lia|].
      change (10 ^ 0) with 1. change (10 ^ (0 + 1)) with 10. lia.
    + apply Z.ltb_ge in Hlt.
      assert (Hpow : 2 ^ (Z.of_nat (S fuel) + 1) = 2 * 2 ^ (Z.of_nat fuel + 1)).
      { rewrite Nat2Z.inj_succ.
        replace (Z.succ (Z.of_nat fuel) + 1) with (Z.succ (Z.of_nat fuel + 1)) by lia.
        apply Z.pow_succ_r. lia. }
      rewrite Hpow in Hn.
      assert (Hdiv : 10 * (n / 10) <= n < 10 * (n / 10) + 10).
      { pose proof (Z.div_mod n 10 ltac:(lia)).
        pose proof (Z.mod_pos_bound n 10 ltac:(lia)). lia. }
      destruct (IH (n / 10)) as (H0 & Hlo & Hhi); [lia|].
      set (j := log10_floor fuel (n / 10)) in *.
      split; [lia|].
      replace (1 + j) with (Z.succ j) by lia.
      replace (Z.succ j + 1) with (Z.succ (j + 1)) by lia.
      rewrite !Z.pow_succ_r by lia. lia.
Qed.

Lemma digits_positive (n : Z) :
  0 < n ->
  exists d, trajectory_layer.digits_in_timestamp_int n = Ok d /\
            has_decimal_digits n d.
Proof.
  intros Hn. unfold trajectory_layer.digits_in_timestamp_int, int_log10.
  destruct (n <=? 0) eqn:Hle; [apply Z.leb_le in Hle; lia|].
  simpl. eexists. split; [reflexivity|].
  destruct (log10_floor_spec (Z.to_nat (Z.log2 n)) n) as (H0 & Hlo & Hhi).
  { rewrite Z2Nat.id by apply Z.log2_nonneg.
    destruct (Z.log2_spec n Hn) as [_ Hup].
    replace (Z.log2 n + 1) with (Z.succ (Z.log2 n)) by lia. lia. }
  unfold has_decimal_digits.
  replace (log10_floor (Z.to_nat (Z.log2 n)) n + 1 - 1)
    with (log10_floor (Z.to_nat (Z.log2 n)) n) by lia.
  lia.
Qed.

Lemma digits_nonpositive (n : Z) :
  n <= 0 -> trajectory_layer.digits_in_timestamp_int n = Raise ValueError.
Proof.
  intros Hn. unfold trajectory_layer.digits_in_timestamp_int, int_log10.
  destruct (n <=? 0) eqn:Hle; [reflexivity | apply Z.leb_gt in Hle; lia].
Qed.

Lemma has_decimal_digits_unique (n d d' : Z) :
  0 < d -> 0 < d' -> has_decimal_digits n d -> has_decimal_digits n d' -> d = d'.
Proof.
  unfold has_decimal_digits. intros Hd Hd' [Hlo Hhi] [Hlo' Hhi'].
  destruct (Z.lt_trichotomy d d') as [Hlt | [Heq | Hgt]]; [|assumption|].
  - assert (10 ^ d <= 10 ^ (d' - 1)) by (apply Z.pow_le_mono_r; lia). lia.
  - assert (10 ^ d' <= 10 ^ (d - 1)) by (apply Z.pow_le_mono_r; lia). lia.
Qed.

(** *** Fields and validation *)

Lemma indexFromName_at_found (fs : list QgsField) (n : string) :
  forall i, 0 <= i -> indexFromName_at i fs n <> -1 ->
  exists pre f post,
    fs = pre ++ f :: post /\ name f = n /\
    (forall g, In g pre -> name g <> n) /\
    indexFromName_at i fs n = i + Z.of_nat (List.length pre).
Proof.
  induction fs as [|f fs IH]; simpl; intros i Hi H.
  - congruence.
  - destruct (String.eqb (name f) n) eqn:Heq.
    + apply String.eqb_eq in Heq.
      exists [], f, fs. simpl. repeat split; auto; try lia; try (intros g []).
    + apply String.eqb_neq in Heq.
      destruct (IH (i + 1)) as (pre & g & post & -> & Hg & Hpre & Hidx);
        [lia | assumption |].
      exists (f :: pre), g, post. simpl. repeat split; auto.
      * intros h [<- | Hh]; auto.
      * rewrite Hidx. lia.
Qed.

Lemma indexFromName_at_absent (fs : list QgsField) (n : string) :
  forall i, 0 <= i -> indexFromName_at i fs n = -1 ->
  forall f, In f fs -> name f <> n.
Proof.
  induction fs as [|g fs IH]; simpl; intros i Hi H f Hf.
  - contradiction.
  - destruct (String.eqb (name g) n) eqn:Heq; [lia|].
    apply String.eqb_neq in Heq.
    destruct Hf as [<- | Hf]; [assumption|].
    eapply IH; [| exact H | exact Hf]. lia.
Qed.

Lemma indexFromName_found (layer : QgsVectorLayer) (n : string) :
  indexFromName (fields layer) n <> -1 ->
  exists f, field_named layer n f /\
            0 <= indexFromName (fields layer) n
              < Z.of_nat (List.length (fields layer)) /\
            field (fields layer) (indexFromName (fields layer) n) = Ok f.
Proof.
  intros H. unfold indexFromName in *.
  destruct (indexFromName_at_found (fields layer) n 0 ltac:(lia) H)
    as (pre & f & post & Hfs & Hn & Hpre & Hidx).
  exists f. split; [exists pre, post; auto|].
  rewrite Hidx. split.
  - rewrite Hfs, length_app. simpl. lia.
  - unfold field. simpl.
    destruct (Z.of_nat (List.length pre) <? 0) eqn:Hneg;
      [apply Z.ltb_lt in Hneg; lia|].
    rewrite Nat2Z.id, Hfs, nth_error_app2 by lia.
    now rewrite Nat.sub_diag.
Qed.

Lemma field_named_unique (layer : QgsVectorLayer) (n : string) (f g : QgsField) :
  field_named layer n f -> field_named layer n g -> f = g.
Proof.
  intros (pre & post & Hf & Hnf & Hpre) (pre' & post' & Hg & Hng & Hpre').
  rewrite Hf in Hg. clear Hf. revert pre' Hg Hpre'.
  induction pre as [|h pre IH]; intros [|h' pre'] Hg Hpre'; simpl in *.
  - congruence.
  - injection Hg as -> _. exfalso. apply (Hpre' h'); auto.
  - injection Hg as -> _. exfalso. apply (Hpre g); auto.
  - injection Hg as -> Hg. apply (IH (fun k Hk => Hpre k (or_intror Hk)) pre' Hg).
    intros k Hk. apply Hpre'. now right.
Qed.

Section Validation.
Context {O : FeatureOrdering} {I : trajectory_layer.imports}.
Import trajectory_layer.

Lemma is_field_valid_total (self : attrs) (n : string) (types : list string) :
  exists b, is_field_valid self n types = Ok b.
Proof.
  unfold is_field_valid.
  destruct (indexFromName (fields (layer self)) n =? -1) eqn:Hidx; [eauto|].
  apply Z.eqb_neq in Hidx.
  destruct types as [|t types]; [eauto|].
  destruct (indexFromName_found _ _ Hidx) as (f & _ & _ & ->). simpl. eauto.
Qed.

Lemma is_field_valid_any (self : attrs) (n : string) :
  is_field_valid self n [] = Ok true -> has_field (layer self) n.
Proof.
  unfold is_field_valid.
  destruct (indexFromName (fields (layer self)) n =? -1) eqn:Hidx;
    [discriminate|].
  intros _. apply Z.eqb_neq in Hidx.
  destruct (indexFromName_found _ _ Hidx) as (f & (pre & post & Hfs & Hn & _) & _).
  exists f. split; [|assumption]. rewrite Hfs. apply in_elt.
Qed.

Lemma is_field_valid_numeric (self : attrs) (n : string) :
  is_field_valid self n ["integer"; "double"] = Ok true ->
  numeric_field (layer self) n.
Proof.
  unfold is_field_valid.
  destruct (indexFromName (fields (layer self)) n =? -1) eqn:Hidx;
    [discriminate|].
  apply Z.eqb_neq in Hidx.
  destruct (indexFromName_found _ _ Hidx) as (f & Hf & _ & ->). simpl.
  intros H. injection H as H. exists f. split; [assumption|].
  rewrite !orb_true_iff in H. destruct H as [H | [H | H]]; [| |discriminate].
  - left. now apply String.eqb_eq.
  - right. now apply String.eqb_eq.
Qed.

Lemma is_field_valid_index (self : attrs) (n : string) (types : list string) :
  is_field_valid self n types = Ok true ->
  0 <= indexFromName (fields (layer self)) n
    < Z.of_nat (List.length (fields (layer self))).
Proof.
  unfold is_field_valid.
  destruct (indexFromName (fields (layer self)) n =? -1) eqn:Hidx;
    [discriminate|].
  intros _. apply Z.eqb_neq in Hidx.
  now destruct (indexFromName_found _ _ Hidx) as (f & _ & Hr & _).
Qed.

Lemma require_field_cases (self : attrs) (n : string) (types : list string)
  (msg : string) :
  (require_field self n types msg = Ok tt /\
   is_field_valid self n types = Ok true) \/
  (require_field self n types msg = Raise (InvalidLayerException msg) /\
   is_field_valid self n types = Ok false).
Proof.
  unfold require_field.
  destruct (is_field_valid_total self n types) as ([|] & ->); simpl; auto.
Qed.

Lemma is_valid_cases (self : attrs) :
  (is_valid self = Ok true /\ validated self) \/
  (exists msg, is_valid self = Raise (InvalidLayerException msg)).
Proof.
  unfold is_valid.
  destruct (isValid (layer self)) eqn:Hv; simpl; [|eauto].
  destruct (geometryType (layer self)) eqn:Hg; simpl; eauto.
  unfold hasFeatures.
  destruct (features (layer self)) as [|f0 fs] eqn:Hf; simpl; [eauto|].
  destruct (require_field_cases self (id_field self) []
              "Id field either not found or of incorrect type.")
    as [[-> H1] | [-> _]]; simpl; [|eauto].
  destruct (require_field_cases self (timestamp_field self) ["integer"; "double"]
              "Timestamp field either not found or of incorrect type.")
    as [[-> H2] | [-> _]]; simpl; [|eauto].
  destruct (require_field_cases self (width_field self) ["integer"; "double"]
              "Width field either not found or of incorrect type.")
    as [[-> H3] | [-> _]]; simpl; [|eauto].
  destruct (require_field_cases self (length_field self) ["integer"; "double"]
              "Length field either not found or of incorrect type.")
    as [[-> H4] | [-> _]]; simpl; [|eauto].
  destruct (require_field_cases self (height_field self) ["integer"; "double"]
              "Height field either not found or of incorrect type.")
    as [[-> H5] | [-> _]]; simpl; [|eauto].
  left. split; [reflexivity|].
  constructor; auto. rewrite Hf. discriminate.
Qed.

Lemma is_valid_ok_inv (self : attrs) (b : bool) :
  is_valid self = Ok b -> b = true /\ validated self.
Proof.
  intros H. destruct (is_valid_cases self) as [[Ht Hv] | [msg Hr]].
  - rewrite Ht in H. injection H as <-. auto.
  - congruence.
Qed.

End Validation.

Lemma init_unfold {O : FeatureOrdering} {I : trajectory_layer.imports}
  (layer : QgsVectorLayer) (idf tsf wf lf hf : string) (unit : TemporalUnit) :
  trajectory_layer.init layer idf tsf wf lf hf unit =
  (valid <- trajectory_layer.is_valid (initial_attrs layer idf tsf wf lf hf unit) ;;
   self <- (if valid : bool then
              trajectory_layer.resolve_timestamp_units
                (trajectory_layer.set_map_units
                   (initial_attrs layer idf tsf wf lf hf unit) (mapUnits layer))
            else Ok (initial_attrs layer idf tsf wf lf hf unit)) ;;
   trajectories <- trajectory_layer.create_trajectories self ;;
   Ok {| trajectory_layer.self_attrs := self;
         trajectory_layer.trajectories := trajectories |}).
Proof. reflexivity. Qed.

(** C5. If the source is not a point layer, has no records, lacks the
    identifier field, or lacks a timestamp, width, length or height field of
    type integer or double, then constructing the [TrajectoryLayer] raises
    [InvalidLayerException]; no object, hence no trajectory collection, partial
    or not, is returned. *)
Theorem C5_validation_gating (O : FeatureOrdering) (I : trajectory_layer.imports)
  (layer : QgsVectorLayer) (idf tsf wf lf hf : string) (unit : TemporalUnit) :
  geometryType layer <> PointGeometry \/
  features layer = [] \/
  ~ has_field layer idf \/
  ~ numeric_field layer tsf \/
  ~ numeric_field layer wf \/
  ~ numeric_field layer lf \/
  ~ numeric_field layer hf ->
  (exists msg,
     trajectory_layer.init layer idf tsf wf lf hf unit
     = Raise (InvalidLayerException msg)) /\
  (forall tl, trajectory_layer.init layer idf tsf wf lf hf unit <> Ok tl).
Proof.
  intros H. rewrite init_unfold.
  destruct (is_valid_cases (initial_attrs layer idf tsf wf lf hf unit))
    as [[_ Hv] | [msg Hr]].
  - exfalso. destruct Hv as [_ Hp Hf Hid Hts Hw Hl Hh]. simpl in *.
    destruct H as [H | [H | [H | [H | [H | [H | H]]]]]]; try contradiction.
    + apply H. exact (is_field_valid_any _ _ Hid).
    + apply H. exact (is_field_valid_numeric _ _ Hts).
    + apply H. exact (is_field_valid_numeric _ _ Hw).
    + apply H. exact (is_field_valid_numeric _ _ Hl).
    + apply H. exact (is_field_valid_numeric _ _ Hh).
  - rewrite Hr. simpl. split; [eauto | discriminate].
Qed.

Lemma C5_witness :
  geometryType line_layer <> PointGeometry /\
  (exists msg,
     sample_init (O := stable_provider) (I := trajectory_spec.classes)
       line_layer TemporalUnknownUnit
     = Raise (InvalidLayerException msg)).
Proof.
  split; [discriminate|].
  apply (C5_validation_gating stable_provider trajectory_spec.classes
           line_layer "id" "timestamp" "width" "length" "height"
           TemporalUnknownUnit).
  left. discriminate.
Defined.

(** C9. [as_geometry] is the polyline through the nodes' positions in stored
    order; it is determined by the node sequence alone; for nodes at (0,0),
    (1,0), (1,1) it is the polyline through exactly these three points in
    this order. *)
Theorem C9_as_geometry :
  (forall t : trajectory.Trajectory,
     asPolyline (trajectory.as_geometry t)
     = map trajectory.point (trajectory.nodes t)) /\
  (forall t : trajectory.Trajectory,
     trajectory.as_geometry t
     = trajectory.as_geometry (trajectory.init (trajectory.nodes t))) /\
  (forall t1 t2 t3 : Z,
     asPolyline
       (trajectory.as_geometry
          (trajectory.init
             [ trajectory.from_coordinates 0 0 t1;
               trajectory.from_coordinates 1 0 t2;
               trajectory.from_coordinates 1 1 t3 ]))
     = [ pt 0 0; pt 1 0; pt 1 1 ]).
Proof.
  split; [|split].
  - intros [nodes]. reflexivity.
  - intros [nodes]. reflexivity.
  - intros t1 t2 t3. reflexivity.
Qed.

(** *** Unit inference *)

Section UnitInference.
Context {O : FeatureOrdering} {I : trajectory_layer.imports}.
Import trajectory_layer.

Lemma resolve_explicit (self : attrs) :
  timestamp_units self <> TemporalUnknownUnit ->
  resolve_timestamp_units self = Ok self.
Proof.
  unfold resolve_timestamp_units. intros H.
  destruct (timestamp_units self); try reflexivity. congruence.
Qed.

Lemma resolve_positive (self : attrs) (f : QgsFeature) (v : QVariant) (n : Z) :
  timestamp_units self = TemporalUnknownUnit ->
  getFeature (layer self) 1 = Some f ->
  attribute (layer self) f (timestamp_field self) = Ok v ->
  int v = Ok n ->
  0 < n ->
  exists d, has_decimal_digits n d /\
    resolve_timestamp_units self
    = Ok (set_timestamp_units self
            (if 13 <=? d then TemporalMilliseconds else TemporalSeconds)).
Proof.
  intros Hu Hf Ha Hi Hn. unfold resolve_timestamp_units.
  rewrite Hu, Hf. simpl. rewrite Ha. simpl. rewrite Hi. simpl.
  destruct (digits_positive n Hn) as (d & -> & Hd). simpl.
  exists d. split; [assumption|].
  unfold UNIX_TIMESTAMP_UNIT_THRESHOLD. now destruct (13 <=? d).
Qed.

Lemma resolve_nonpositive (self : attrs) (f : QgsFeature) (v : QVariant) (n : Z) :
  timestamp_units self = TemporalUnknownUnit ->
  getFeature (layer self) 1 = Some f ->
  attribute (layer self) f (timestamp_field self) = Ok v ->
  int v = Ok n ->
  n <= 0 ->
  resolve_timestamp_units self = Raise ValueError.
Proof.
  intros Hu Hf Ha Hi Hn. unfold resolve_timestamp_units.
  rewrite Hu, Hf. simpl. rewrite Ha. simpl. rewrite Hi. simpl.
  now rewrite (digits_nonpositive n Hn).
Qed.

End UnitInference.

(** C3, as the code has it.  When no timestamp unit is supplied and the layer
    is valid, the unit is inferred from the timestamp of the feature with id
    1: if the integer part [n] of that value is positive and [d] is its number
    of decimal digits, the trajectories are built with the unit milliseconds
    when [d] is 13 or more and with the unit seconds otherwise.  No absolute
    value is taken. *)
Theorem C3_unit_inferred_from_digits (O : FeatureOrdering)
  (I : trajectory_layer.imports) (layer : QgsVectorLayer)
  (idf tsf wf lf hf : string) (f : QgsFeature) (v : QVariant) (n : Z) :
  trajectory_layer.is_valid
    (initial_attrs layer idf tsf wf lf hf TemporalUnknownUnit) = Ok true ->
  getFeature layer 1 = Some f ->
  attribute layer f tsf = Ok v ->
  int v = Ok n ->
  0 < n ->
  exists d self,
    has_decimal_digits n d /\
    self = trajectory_layer.set_timestamp_units
             (trajectory_layer.set_map_units
                (initial_attrs layer idf tsf wf lf hf TemporalUnknownUnit)
                (mapUnits layer))
             (if 13 <=? d then TemporalMilliseconds else TemporalSeconds) /\
    trajectory_layer.resolve_timestamp_units
      (trajectory_layer.set_map_units
         (initial_attrs layer idf tsf wf lf hf TemporalUnknownUnit)
         (mapUnits layer))
    = Ok self /\
    trajectory_layer.init layer idf tsf wf lf hf TemporalUnknownUnit
    = (trajectories <- trajectory_layer.create_trajectories self ;;
       Ok {| trajectory_layer.self_attrs := self;
             trajectory_layer.trajectories := trajectories |}).
Proof.
  intros Hv Hf Ha Hi Hn.
  destruct (resolve_positive
              (trajectory_layer.set_map_units
                 (initial_attrs layer idf tsf wf lf hf TemporalUnknownUnit)
                 (mapUnits layer)) f v n eq_refl Hf Ha Hi Hn)
    as (d & Hd & Hr).
  exists d. eexists. split; [exact Hd|]. split; [reflexivity|].
  split; [exact Hr|].
  rewrite init_unfold, Hv. simpl bind at 1. rewrite Hr. reflexivity.
Qed.

Lemma C3_witness :
  exists d self,
    has_decimal_digits 1700000000000 d /\
    self = trajectory_layer.set_timestamp_units
             (sample_attrs layer_millis TemporalUnknownUnit)
             (if 13 <=? d then TemporalMilliseconds else TemporalSeconds) /\
    trajectory_layer.resolve_timestamp_units
      (sample_attrs layer_millis TemporalUnknownUnit)
    = Ok self /\
    sample_init (O := stable_provider) (I := trajectory_spec.classes)
      layer_millis TemporalUnknownUnit
    = (trajectories <- trajectory_layer.create_trajectories
                         (O := stable_provider) self ;;
       Ok {| trajectory_layer.self_attrs := self;
             trajectory_layer.trajectories := trajectories |}).
Proof.
  apply (C3_unit_inferred_from_digits stable_provider trajectory_spec.classes
           layer_millis "id" "timestamp" "width" "length" "height"
           (sample_feature 1 (pt 0 0) (Num 7) (Num 1700000000000))
           (Num 1700000000000) 1700000000000).
  - reflexivity.
  - reflexivity.
  - reflexivity.
  - reflexivity.
  - reflexivity.
Defined.

(** The claim C3 as worded takes the digit count of the absolute value.  The
    first timestamp of [layer_negative] is -1700000000000, whose absolute
    value has 13 digits, so the claim classifies it as milliseconds; the code
    classifies nothing and raises [ValueError]. *)
Lemma C3_counterexample :
  ~ C3_as_worded /\
  has_decimal_digits (Z.abs (-1700000000000)) 13 /\
  trajectory_layer.is_valid (sample_attrs layer_negative TemporalUnknownUnit)
  = Ok true /\
  getFeature layer_negative 1
  = Some (sample_feature 1 (pt 0 0) (Num 7) (Num (-1700000000000))) /\
  trajectory_layer.resolve_timestamp_units
    (sample_attrs layer_negative TemporalUnknownUnit)
  = Raise ValueError /\
  sample_init (O := stable_provider) (I := trajectory_spec.classes)
    layer_negative TemporalUnknownUnit
  = Raise ValueError.
Proof.
  split.
  { intros H.
    destruct (H (sample_attrs layer_negative TemporalUnknownUnit)
                (sample_feature 1 (pt 0 0) (Num 7) (Num (-1700000000000)))
                (Num (-1700000000000)) (-1700000000000)
                eq_refl eq_refl eq_refl eq_refl ltac:(discriminate))
      as (d & _ & Hr).
    discriminate Hr. }
  split; [unfold has_decimal_digits; simpl; lia|].
  repeat split; reflexivity.
Qed.



(** *** Trajectory construction *)

Lemma getitem_ok_inv (f : QgsFeature) (idx : Z) (v : QVariant) :
  getitem f idx = Ok v -> 0 <= idx /\ v = attribute_at idx f.
Proof.
  unfold getitem, attribute_at.
  destruct (idx <? 0) eqn:H; [discriminate|].
  apply Z.ltb_ge in H. intros E. injection E as <-. auto.
Qed.

Lemma datetime_fromtimestamp_ok_inv (v : QVariant) (d : datetime) :
  datetime_fromtimestamp v = Ok d ->
  exists t, v = Num t /\ representable t = true /\ d = utc_instant t.
Proof.
  destruct v as [|t]; simpl; [discriminate|].
  destruct (representable t) eqn:E; [|discriminate].
  intros H. injection H as <-. eauto.
Qed.

Lemma getitem_nonneg (f : QgsFeature) (idx : Z) :
  0 <= idx -> getitem f idx = Ok (attribute_at idx f).
Proof.
  intros H. unfold getitem, attribute_at.
  destruct (idx <? 0) eqn:E; [apply Z.ltb_lt in E; lia | reflexivity].
Qed.

Section Construction.
Context {O : FeatureOrdering}.

Let node_of := trajectory_layer.node_of (I := trajectory_spec.classes).
Let create_trajectories :=
  trajectory_layer.create_trajectories (O := O) (I := trajectory_spec.classes).

Lemma node_of_ok_inv (self : trajectory_layer.attrs) (f : QgsFeature)
  (n : trajectory_spec.TrajectoryNode) :
  node_of self (timestamp_idx self) (width_idx self) (length_idx self)
    (height_idx self) f = Ok n ->
  node_built_from self f n.
Proof.
  unfold node_of, trajectory_layer.node_of. intros H.
  apply bind_ok_inv in H as (ts & Hts & H).
  apply bind_ok_inv in H as (w & Hw & H).
  apply bind_ok_inv in H as (l & Hl & H).
  apply bind_ok_inv in H as (h & Hh & H).
  apply bind_ok_inv in H as (ts' & Hts' & H).
  apply bind_ok_inv in H as (t & Ht & H).
  apply getitem_ok_inv in Hw as [_ ->], Hl as [_ ->], Hh as [_ ->].
  simpl in H. injection H as <-.
  apply datetime_fromtimestamp_ok_inv in Ht as (s & -> & _ & ->).
  unfold node_built_from, stored_posix. rewrite Hts.
  destruct ts as [|raw].
  - destruct (TemporalUnit_eqb _ _); simpl in Hts'; discriminate.
  - exists raw. split; [reflexivity|].
    destruct (TemporalUnit_eqb _ _); simpl in Hts'; injection Hts' as <-;
      reflexivity.
Qed.

Lemma node_of_ok_intro (self : trajectory_layer.attrs) (f : QgsFeature) (raw : Q) :
  0 <= timestamp_idx self -> 0 <= width_idx self ->
  0 <= length_idx self -> 0 <= height_idx self ->
  attribute_at (timestamp_idx self) f = Num raw ->
  representable (stored_posix (trajectory_layer.timestamp_units self) raw) = true ->
  exists n,
    node_of self (timestamp_idx self) (width_idx self) (length_idx self)
      (height_idx self) f = Ok n.
Proof.
  intros Ht Hw Hl Hh Hraw Hrep. unfold node_of, trajectory_layer.node_of.
  rewrite !getitem_nonneg by assumption. simpl. rewrite Hraw.
  unfold stored_posix in Hrep.
  destruct (TemporalUnit_eqb _ _); simpl; rewrite Hrep; simpl; eauto.
Qed.

(** What a successful [create_trajectories] has built: one trajectory per
    identifier of [uniqueValues], in that order, each holding a reference to
    the layer object and one node per feature of the identifier's request, in
    the order of the request. *)
Lemma create_trajectories_ok_inv (self : trajectory_layer.attrs)
  (trajs : list trajectory_spec.Trajectory) :
  create_trajectories self = Ok trajs ->
  Forall2
    (fun v t =>
       trajectory_spec.layer t = self /\
       Forall2 (node_built_from self) (selected self v) (trajectory_spec.nodes t))
    (uniqueValues (trajectory_layer.layer self) (id_idx self)) trajs.
Proof.
  unfold create_trajectories, trajectory_layer.create_trajectories. intros H.
  apply for_each_ok_inv in H.
  eapply Forall2_impl; [|exact H].
  intros v t Ht. unfold trajectory_layer.trajectory_of in Ht.
  apply bind_ok_inv in Ht as (nodes & Hnodes & Ht).
  simpl in Ht. injection Ht as <-. simpl. split; [reflexivity|].
  apply for_each_ok_inv in Hnodes.
  eapply Forall2_impl; [|exact Hnodes].
  intros f n Hn. now apply node_of_ok_inv in Hn.
Qed.

End Construction.


(** *** Distinct values and selection *)

Lemma QVariant_eqb_refl (a : QVariant) : QVariant_eqb a a = true.
Proof. destruct a as [|q]; simpl; [reflexivity | apply Qeq_bool_refl]. Qed.

Lemma QVariant_eqb_sym (a b : QVariant) : QVariant_eqb a b = QVariant_eqb b a.
Proof.
  destruct a as [|p], b as [|q]; simpl; try reflexivity. apply Qeq_bool_comm.
Qed.

Lemma QVariant_eqb_trans (a b c : QVariant) :
  QVariant_eqb a b = true -> QVariant_eqb b c = true -> QVariant_eqb a c = true.
Proof.
  destruct a as [|p], b as [|q], c as [|r]; simpl; try congruence.
  apply Qeq_bool_trans.
Qed.

Lemma distinct_in (l : list QVariant) (v : QVariant) :
  In v (distinct l) -> In v l.
Proof.
  induction l as [|w l IH]; simpl; [auto|].
  intros [-> | H]; [auto|]. apply filter_In in H as [H _]. auto.
Qed.

Lemma distinct_covers (l : list QVariant) (w : QVariant) :
  In w l -> exists v, In v (distinct l) /\ QVariant_eqb v w = true.
Proof.
  induction l as [|u l IH]; simpl; [contradiction|].
  intros [-> | H].
  - exists w. split; [auto | apply QVariant_eqb_refl].
  - destruct (IH H) as (v & Hv & Hvw).
    destruct (QVariant_eqb u v) eqn:Huv.
    + exists u. split; [auto|]. eapply QVariant_eqb_trans; eassumption.
    + exists v. split; [|assumption]. right. apply filter_In.
      split; [assumption|]. now rewrite Huv.
Qed.

Lemma ForallOrdPairs_filter {A : Type} (R : A -> A -> Prop) (p : A -> bool)
  (l : list A) :
  ForallOrdPairs R l -> ForallOrdPairs R (filter p l).
Proof.
  induction 1 as [|a l Ha _ IH]; simpl; [constructor|].
  destruct (p a); [|assumption].
  constructor; [|assumption].
  apply Forall_forall. intros b Hb. apply filter_In in Hb as [Hb _].
  revert b Hb. now apply Forall_forall.
Qed.

Lemma distinct_pairwise (l : list QVariant) :
  ForallOrdPairs (fun a b => QVariant_eqb a b = false) (distinct l).
Proof.
  induction l as [|u l IH]; simpl; [constructor|].
  constructor; [|now apply ForallOrdPairs_filter].
  apply Forall_forall. intros b Hb. apply filter_In in Hb as [_ Hb].
  now apply negb_true_iff in Hb.
Qed.

Lemma uniqueValues_in (layer : QgsVectorLayer) (idx : Z) (v : QVariant) :
  In v (uniqueValues layer idx) ->
  0 <= idx /\ exists f, In f (features layer) /\ attribute_at idx f = v.
Proof.
  unfold uniqueValues.
  destruct (idx <? 0) eqn:Hneg; simpl; [contradiction|].
  destruct (Z.of_nat (List.length (fields layer)) <=? idx); [contradiction|].
  intros H. apply Z.ltb_ge in Hneg. split; [assumption|].
  apply distinct_in, in_map_iff in H as (f & Hf & Hin). eauto.
Qed.

Lemma selects_by_value (self : trajectory_layer.attrs) (q : Q) (f : QgsFeature) :
  0 <= id_idx self ->
  expression_selects (trajectory_layer.layer self)
    (trajectory_layer.id_field self) (Num q) f
  = QVariant_eqb (attribute_at (id_idx self) f) (Num q).
Proof.
  intros H. unfold expression_selects. fold (indexOf (fields (trajectory_layer.layer self))
    (trajectory_layer.id_field self)). fold (id_idx self).
  destruct (id_idx self <? 0) eqn:E; [apply Z.ltb_lt in E; lia|].
  now destruct (attribute_at (id_idx self) f).
Qed.

Lemma selects_null (layer : QgsVectorLayer) (idf : string) (f : QgsFeature) :
  expression_selects layer idf NULL f = false.
Proof.
  unfold expression_selects.
  destruct (indexFromName (fields layer) idf <? 0); [reflexivity|].
  now destruct (attribute_at _ f).
Qed.

Section Selection.
Context {O : FeatureOrdering}.
Hypothesis HO : ordered_request O.

Lemma selected_null (self : trajectory_layer.attrs) : selected self NULL = [].
Proof.
  unfold selected, getFeatures.
  rewrite (filter_ext _ (fun _ => false)) by (intros f; apply selects_null).
  assert (E : filter (fun _ : QgsFeature => false)
                (features (trajectory_layer.layer self)) = []).
  { induction (features (trajectory_layer.layer self)); simpl; auto. }
  rewrite E. apply Permutation_nil. apply Permutation_sym. apply HO.
Qed.

Lemma selected_perm (self : trajectory_layer.attrs) (q : Q) :
  0 <= id_idx self ->
  Permutation (selected self (Num q)) (records_with_id self (Num q)).
Proof.
  intros H. unfold selected, getFeatures, records_with_id.
  rewrite (filter_ext _ (fun f => QVariant_eqb (attribute_at (id_idx self) f) (Num q)))
    by (intros f; now apply selects_by_value).
  apply HO.
Qed.

Lemma selected_nonempty (self : trajectory_layer.attrs) (v : QVariant) :
  In v (uniqueValues (trajectory_layer.layer self) (id_idx self)) ->
  v <> NULL -> selected self v <> [].
Proof.
  intros Hin Hv. destruct v as [|q]; [congruence|].
  apply uniqueValues_in in Hin as (Hidx & f & Hf & Ha).
  intros E. pose proof (selected_perm self q Hidx) as P. rewrite E in P.
  apply Permutation_nil in P.
  assert (Hin : In f (records_with_id self (Num q))).
  { apply filter_In. split; [assumption|]. rewrite Ha. apply QVariant_eqb_refl. }
  rewrite P in Hin. contradiction.
Qed.

Lemma selected_sorted (self : trajectory_layer.attrs) (v : QVariant) :
  StronglySorted
    (fun a b =>
       variant_le
         (order_key (trajectory_layer.layer self)
            (trajectory_layer.timestamp_field self) a)
         (order_key (trajectory_layer.layer self)
            (trajectory_layer.timestamp_field self) b) = true)
    (selected self v).
Proof. unfold selected, getFeatures. apply HO. Qed.

End Selection.

(** *** Order of the nodes *)

Lemma stored_posix_mono (unit : TemporalUnit) (p q : Q) :
  (p <= q)%Q -> (stored_posix unit p <= stored_posix unit q)%Q.
Proof.
  intros H. unfold stored_posix.
  destruct (TemporalUnit_eqb unit TemporalMilliseconds); [|assumption].
  unfold Qdiv. apply Qmult_le_compat_r; [assumption|]. discriminate.
Qed.

Lemma built_nodes_ordered (self : trajectory_layer.attrs) (f g : QgsFeature)
  (n m : trajectory_spec.TrajectoryNode) :
  node_built_from self f n -> node_built_from self g m ->
  variant_le
    (order_key (trajectory_layer.layer self)
       (trajectory_layer.timestamp_field self) f)
    (order_key (trajectory_layer.layer self)
       (trajectory_layer.timestamp_field self) g) = true ->
  datetime_le (trajectory_spec.timestamp n) (trajectory_spec.timestamp m).
Proof.
  intros (p & Hp & ->) (q & Hq & ->). unfold order_key.
  fold (indexOf (fields (trajectory_layer.layer self))
          (trajectory_layer.timestamp_field self)).
  fold (timestamp_idx self).
  apply getitem_ok_inv in Hp as [Hi Hp], Hq as [_ Hq].
  destruct (timestamp_idx self <? 0) eqn:E; [apply Z.ltb_lt in E; lia|].
  rewrite <- Hp, <- Hq. simpl. intros H. apply Qle_bool_iff in H.
  unfold datetime_le. simpl. now apply stored_posix_mono.
Qed.

Lemma Forall2_in_right {A B : Type} (R : A -> B -> Prop) (l : list A)
  (l' : list B) (b : B) :
  Forall2 R l l' -> In b l' -> exists a, In a l /\ R a b.
Proof.
  induction 1 as [|a0 b0 l l' H0 _ IH]; simpl; [contradiction|].
  intros [<- | Hb]; [eauto|].
  destruct (IH Hb) as (a & Ha & Hab). eauto.
Qed.

Lemma built_nodes_sorted (self : trajectory_layer.attrs) (recs : list QgsFeature)
  (nodes : list trajectory_spec.TrajectoryNode) :
  Forall2 (node_built_from self) recs nodes ->
  StronglySorted
    (fun a b =>
       variant_le
         (order_key (trajectory_layer.layer self)
            (trajectory_layer.timestamp_field self) a)
         (order_key (trajectory_layer.layer self)
            (trajectory_layer.timestamp_field self) b) = true) recs ->
  StronglySorted datetime_le (map trajectory_spec.timestamp nodes).
Proof.
  induction 1 as [|f n recs nodes Hfn Hrest IH]; simpl; intros Hs.
  - constructor.
  - inversion Hs as [|? ? Hs' Hall]; subst. constructor; [now apply IH|].
    apply Forall_forall. intros t Ht. apply in_map_iff in Ht as (m & <- & Hm).
    destruct (Forall2_in_right _ _ _ m Hrest Hm) as (g & Hg & Hgm).
    eapply built_nodes_ordered; [exact Hfn | exact Hgm |].
    rewrite Forall_forall in Hall. now apply Hall.
Qed.

Lemma built_nodes_points (self : trajectory_layer.attrs) (recs : list QgsFeature)
  (nodes : list trajectory_spec.TrajectoryNode) :
  Forall2 (node_built_from self) recs nodes ->
  map trajectory_spec.point nodes = map geometry recs.
Proof.
  induction 1 as [|f n recs nodes (raw & _ & ->) _ IH]; simpl; congruence.
Qed.

Lemma equal_keys_le (a b k : QVariant) :
  QVariant_eqb a k = true -> QVariant_eqb b k = true -> variant_le a b = true.
Proof.
  destruct a as [|p], b as [|q], k as [|r]; simpl; try congruence.
  intros Hp Hq. apply Qeq_bool_iff in Hp, Hq. apply Qle_bool_iff.
  rewrite Hp, Hq. apply Qle_refl.
Qed.

Lemma insert_keeps_ties (key : QgsFeature -> QVariant) (k : QVariant)
  (f : QgsFeature) (l : list QgsFeature) :
  filter (fun g => QVariant_eqb (key g) k) (insert variant_le key f l)
  = filter (fun g => QVariant_eqb (key g) k) (f :: l).
Proof.
  induction l as [|g l IH]; [reflexivity|].
  cbn [insert]. destruct (variant_le (key f) (key g)) eqn:Hle; [reflexivity|].
  cbn [filter] in *. rewrite IH.
  destruct (QVariant_eqb (key f) k) eqn:Hf, (QVariant_eqb (key g) k) eqn:Hg;
    try reflexivity.
  rewrite (equal_keys_le _ _ _ Hf Hg) in Hle. discriminate.
Qed.

Lemma stable_provider_keeps_tie_order (key : QgsFeature -> QVariant)
  (l : list QgsFeature) :
  keeps_tie_order key l (order_by (FeatureOrdering := stable_provider) key l).
Proof.
  intros k. simpl. induction l as [|f l IH]; [reflexivity|].
  cbn [insertion_sort]. rewrite insert_keeps_ties. cbn [filter]. now rewrite IH.
Qed.

Lemma Forall2_impl_in {A B : Type} (R S : A -> B -> Prop) (l : list A)
  (l' : list B) :
  Forall2 R l l' ->
  (forall a b, In a l -> R a b -> S a b) ->
  Forall2 S l l'.
Proof.
  induction 1 as [|a b l l' Hab _ IH]; intros H; constructor.
  - apply H; [now left | assumption].
  - apply IH. intros a' b' Hin. apply H. now right.
Qed.



Lemma validated_indexes (self : trajectory_layer.attrs) :
  validated self ->
  0 <= id_idx self < Z.of_nat (List.length (fields (trajectory_layer.layer self))) /\
  0 <= timestamp_idx self /\ 0 <= width_idx self /\
  0 <= length_idx self /\ 0 <= height_idx self.
Proof.
  intros [_ _ _ Hid Hts Hw Hl Hh].
  apply is_field_valid_index in Hid, Hts, Hw, Hl, Hh.
  unfold id_idx, timestamp_idx, width_idx, length_idx, height_idx, indexOf. lia.
Qed.

Lemma uniqueValues_in_range (layer : QgsVectorLayer) (idx : Z) :
  0 <= idx < Z.of_nat (List.length (fields layer)) ->
  uniqueValues layer idx = distinct (map (attribute_at idx) (features layer)).
Proof.
  intros H. unfold uniqueValues.
  destruct (idx <? 0) eqn:E1; [apply Z.ltb_lt in E1; lia|].
  destruct (Z.of_nat (List.length (fields layer)) <=? idx) eqn:E2;
    [apply Z.leb_le in E2; lia | reflexivity].
Qed.


Lemma sample_records_well_formed :
  forall f, In f (features layer_seconds) ->
    well_formed_record (sample_attrs layer_seconds TemporalSeconds) f.
Proof.
  intros f [<- | [<- | [<- | []]]];
    (split; [discriminate | eexists; split; reflexivity]).
Qed.








(** *** The classes declared in trajectory.py under the calls of
    trajectory_layer.py *)

Section DeclaredClasses.
Context {O : FeatureOrdering}.

Lemma resolve_keeps_layer (self self' : trajectory_layer.attrs) :
  trajectory_layer.resolve_timestamp_units self = Ok self' ->
  trajectory_layer.layer self' = trajectory_layer.layer self /\
  trajectory_layer.id_field self' = trajectory_layer.id_field self.
Proof.
  unfold trajectory_layer.resolve_timestamp_units.
  destruct (TemporalUnit_eqb _ _).
  - intros H.
    apply bind_ok_inv in H as (ts & _ & H).
    apply bind_ok_inv in H as (num & _ & H).
    apply bind_ok_inv in H as (d & _ & H).
    destruct (_ <=? d); injection H as <-; auto.
  - intros H. injection H as <-. auto.
Qed.

Lemma create_trajectories_declared_raises (self : trajectory_layer.attrs) :
  uniqueValues (trajectory_layer.layer self) (id_idx self) <> [] ->
  exists e,
    trajectory_layer.create_trajectories (I := trajectory_py) self = Raise e.
Proof.
  unfold trajectory_layer.create_trajectories. fold (id_idx self).
  destruct (uniqueValues (trajectory_layer.layer self) (id_idx self))
    as [|v vs]; [congruence|].
  intros _. cbn [for_each]. unfold trajectory_layer.trajectory_of at 1.
  destruct (for_each _ _) as [nodes|e]; simpl; eauto.
Qed.

Lemma validated_has_identifier (self : trajectory_layer.attrs) :
  validated self ->
  uniqueValues (trajectory_layer.layer self) (id_idx self) <> [].
Proof.
  intros Hv. destruct (validated_indexes self Hv) as (Hid & _).
  rewrite (uniqueValues_in_range _ _ Hid).
  destruct Hv as [_ _ Hf _ _ _ _ _].
  destruct (features (trajectory_layer.layer self)); [congruence|].
  discriminate.
Qed.

End DeclaredClasses.

(** C7.  [TrajectoryNode] as [trajectory.py] declares it has the fields
    [point] and [timestamp] only, so the five-argument call in
    [create_trajectories] raises [TypeError] and no node carrying width,
    length and height is built: with the declared classes the construction of
    a [TrajectoryLayer] never returns an object, and on the one-record layer
    [layer_ten_digits] it ends in [TypeError]. *)
Theorem C7_declared_node_rejects_dimensions :
  (forall p t w l h,
     trajectory_layer.TrajectoryNode_new (imports := trajectory_py) p t w l h
     = Raise TypeError) /\
  sample_init (O := stable_provider) (I := trajectory_py)
    layer_ten_digits TemporalUnknownUnit = Raise TypeError /\
  (forall (O : FeatureOrdering) (layer : QgsVectorLayer)
          (idf tsf wf lf hf : string) (unit : TemporalUnit),
     exists e,
       trajectory_layer.init (I := trajectory_py) layer idf tsf wf lf hf unit
       = Raise e).
Proof.
  split; [reflexivity|]. split; [reflexivity|].
  intros O layer idf tsf wf lf hf unit. rewrite init_unfold.
  destruct (is_valid_cases (initial_attrs layer idf tsf wf lf hf unit))
    as [[-> Hv] | [msg ->]]; [|simpl; eauto].
  simpl bind at 1.
  destruct (trajectory_layer.resolve_timestamp_units _) as [self'|e] eqn:Hr;
    [|simpl; eauto].
  simpl bind at 1.
  destruct (create_trajectories_declared_raises self') as (e & ->);
    [|simpl; eauto].
  apply resolve_keeps_layer in Hr as [Hl Hi].
  pose proof (validated_has_identifier _ Hv) as Hne.
  unfold id_idx in *. rewrite Hl, Hi. exact Hne.
Qed.

(** C8.  [Trajectory.__init__] as [trajectory.py] declares it takes the node
    tuple only and a [Trajectory] holds nothing but its nodes, so the call
    [Trajectory(tuple(nodes), self)] raises [TypeError] and no trajectory is
    associated with its layer.  On [layer_null_id], where no node is built,
    [create_trajectories] ends in that error. *)
Theorem C8_declared_trajectory_rejects_source :
  (forall nodes self,
     trajectory_layer.Trajectory_new (imports := trajectory_py) nodes self
     = Raise TypeError) /\
  (forall t : trajectory.Trajectory, t = trajectory.init (trajectory.nodes t)) /\
  selected (O := stable_provider)
    (sample_attrs layer_null_id TemporalSeconds) NULL = [] /\
  trajectory_layer.create_trajectories (O := stable_provider)
    (I := trajectory_py) (sample_attrs layer_null_id TemporalSeconds)
  = Raise TypeError.
Proof.
  split; [reflexivity|]. split; [now intros [nodes]|]. split; reflexivity.
Qed.

(** ** Further properties of the code *)

(** *** Field checks and validation *)

Lemma has_field_index (layer : QgsVectorLayer) (n : string) :
  has_field layer n <-> indexFromName (fields layer) n <> -1.
Proof.
  split.
  - intros (f & Hin & Hn) Habs.
    exact (indexFromName_at_absent (fields layer) n 0 ltac:(lia) Habs f Hin Hn).
  - intros H. destruct (indexFromName_found _ _ H)
      as (f & (pre & post & Hfs & Hn & _) & _).
    exists f. split; [|assumption]. rewrite Hfs. apply in_elt.
Qed.

Lemma field_named_has_field (layer : QgsVectorLayer) (n : string) (f : QgsField) :
  field_named layer n f -> has_field layer n.
Proof.
  intros (pre & post & Hfs & Hn & _). exists f. split; [|assumption].
  rewrite Hfs. apply in_elt.
Qed.

(** X1.  [is_field_valid] never raises, and it answers [True] exactly when the
    layer has a field of that name and either no type is asked for or the
    display type of the field (the first of that name) is one of the accepted
    types. *)
Theorem is_field_valid_spec (self : trajectory_layer.attrs) (n : string)
  (types : list string) :
  exists b,
    trajectory_layer.is_field_valid self n types = Ok b /\
    (b = true <->
     exists f, field_named (trajectory_layer.layer self) n f /\
               (types = [] \/ In (displayType f) types)).
Proof.
  unfold trajectory_layer.is_field_valid.
  destruct (indexFromName (fields (trajectory_layer.layer self)) n =? -1) eqn:E.
  - apply Z.eqb_eq in E. exists false. split; [reflexivity|].
    split; [discriminate|].
    intros (f & Hf & _). apply field_named_has_field, has_field_index in Hf.
    contradiction.
  - apply Z.eqb_neq in E.
    destruct (indexFromName_found _ _ E) as (f & Hf & _ & Hfield).
    destruct types as [|t types].
    + exists true. split; [reflexivity|]. split; [|reflexivity].
      intros _. exists f. auto.
    + rewrite Hfield. cbn [bind].
      exists (existsb (String.eqb (displayType f)) (t :: types)).
      split; [reflexivity|]. rewrite existsb_exists. split.
      * intros (u & Hu & Heq). apply String.eqb_eq in Heq. subst u.
        exists f. auto.
      * intros (g & Hg & [Hnil | Hin]); [discriminate|].
        rewrite (field_named_unique _ _ _ _ Hf Hg).
        exists (displayType g). split; [assumption | apply String.eqb_refl].
Qed.

Lemma is_field_valid_true_iff (self : trajectory_layer.attrs) (n : string)
  (types : list string) :
  trajectory_layer.is_field_valid self n types = Ok true <->
  exists f, field_named (trajectory_layer.layer self) n f /\
            (types = [] \/ In (displayType f) types).
Proof.
  destruct (is_field_valid_spec self n types) as (b & Hb & Hiff).
  rewrite Hb. split.
  - intros H. injection H as ->. now apply Hiff.
  - intros H. apply Hiff in H. now subst.
Qed.

Lemma is_field_valid_any_iff (self : trajectory_layer.attrs) (n : string) :
  trajectory_layer.is_field_valid self n [] = Ok true <->
  has_field (trajectory_layer.layer self) n.
Proof.
  split; [apply is_field_valid_any|].
  intros H. apply is_field_valid_true_iff.
  apply has_field_index in H.
  destruct (indexFromName_found _ _ H) as (f & Hf & _). exists f. auto.
Qed.

Lemma is_field_valid_numeric_iff (self : trajectory_layer.attrs) (n : string) :
  trajectory_layer.is_field_valid self n ["integer"; "double"] = Ok true <->
  numeric_field (trajectory_layer.layer self) n.
Proof.
  split; [apply is_field_valid_numeric|].
  intros (f & Hf & Ht). apply is_field_valid_true_iff. exists f.
  split; [assumption|]. right. simpl. destruct Ht as [-> | ->]; auto.
Qed.

Lemma require_field_ok (self : trajectory_layer.attrs) (n : string)
  (types : list string) (msg : string) :
  trajectory_layer.is_field_valid self n types = Ok true ->
  trajectory_layer.require_field self n types msg = Ok tt.
Proof. unfold trajectory_layer.require_field. now intros ->. Qed.

Lemma require_field_raises (self : trajectory_layer.attrs) (n : string)
  (types : list string) (msg : string) :
  trajectory_layer.is_field_valid self n types <> Ok true ->
  trajectory_layer.require_field self n types msg
  = Raise (InvalidLayerException msg).
Proof.
  intros H. destruct (require_field_cases self n types msg) as [[_ Ht] | [Hr _]];
    [contradiction | assumption].
Qed.

(** X2.  [is_valid] never answers [False]: it returns [True] or raises.  It
    returns [True] exactly when the layer is valid, is a point layer, has a
    feature, has the identifier field, and has timestamp, width, length and
    height fields of display type integer or double. *)
Theorem is_valid_accepts_exactly (self : trajectory_layer.attrs) :
  (forall b, trajectory_layer.is_valid self = Ok b -> b = true) /\
  (trajectory_layer.is_valid self = Ok true <->
   isValid (trajectory_layer.layer self) = true /\
   geometryType (trajectory_layer.layer self) = PointGeometry /\
   features (trajectory_layer.layer self) <> [] /\
   has_field (trajectory_layer.layer self) (trajectory_layer.id_field self) /\
   numeric_field (trajectory_layer.layer self)
     (trajectory_layer.timestamp_field self) /\
   numeric_field (trajectory_layer.layer self)
     (trajectory_layer.width_field self) /\
   numeric_field (trajectory_layer.layer self)
     (trajectory_layer.length_field self) /\
   numeric_field (trajectory_layer.layer self)
     (trajectory_layer.height_field self)).
Proof.
  split; [intros b H; now apply is_valid_ok_inv in H|].
  split.
  - intros H. apply is_valid_ok_inv in H as [_ [Hv Hp Hf Hid Hts Hw Hl Hh]].
    repeat split; try assumption.
    + now apply is_field_valid_any_iff.
    + now apply is_field_valid_numeric_iff.
    + now apply is_field_valid_numeric_iff.
    + now apply is_field_valid_numeric_iff.
    + now apply is_field_valid_numeric_iff.
  - intros (Hv & Hp & Hf & Hid & Hts & Hw & Hl & Hh).
    apply is_field_valid_any_iff in Hid.
    apply is_field_valid_numeric_iff in Hts, Hw, Hl, Hh.
    unfold trajectory_layer.is_valid, hasFeatures. rewrite Hv, Hp.
    destruct (features (trajectory_layer.layer self)); [congruence|].
    cbn [negb GeometryType_eqb FeatureAvailability_eqb].
    rewrite !require_field_ok by assumption. reflexivity.
Qed.

Lemma not_point_eqb (g : GeometryType) :
  g <> PointGeometry -> GeometryType_eqb g PointGeometry = false.
Proof. destruct g; simpl; congruence. Qed.

(** X3.  The checks of [is_valid] run in a fixed order and the first that fails
    decides the message: layer validity, geometry type, presence of features,
    then the identifier, timestamp, width, length and height fields. *)
Theorem is_valid_first_failure (self : trajectory_layer.attrs) :
  let layer := trajectory_layer.layer self in
  let raises msg :=
    trajectory_layer.is_valid self = Raise (InvalidLayerException msg) in
  (isValid layer = false -> raises "Layer is not valid.") /\
  (isValid layer = true ->
   (geometryType layer <> PointGeometry ->
    raises "Layer is not a point layer.") /\
   (geometryType layer = PointGeometry ->
    (features layer = [] -> raises "Layer has no features.") /\
    (features layer <> [] ->
     (~ has_field layer (trajectory_layer.id_field self) ->
      raises "Id field either not found or of incorrect type.") /\
     (has_field layer (trajectory_layer.id_field self) ->
      (~ numeric_field layer (trajectory_layer.timestamp_field self) ->
       raises "Timestamp field either not found or of incorrect type.") /\
      (numeric_field layer (trajectory_layer.timestamp_field self) ->
       (~ numeric_field layer (trajectory_layer.width_field self) ->
        raises "Width field either not found or of incorrect type.") /\
       (numeric_field layer (trajectory_layer.width_field self) ->
        (~ numeric_field layer (trajectory_layer.length_field self) ->
         raises "Length field either not found or of incorrect type.") /\
        (numeric_field layer (trajectory_layer.length_field self) ->
         ~ numeric_field layer (trajectory_layer.height_field self) ->
         raises "Height field either not found or of incorrect type."))))))).
Proof.
  cbv zeta. unfold trajectory_layer.is_valid, hasFeatures.
  split; [intros ->; reflexivity|].
  intros ->. cbn [negb]. split.
  { intros Hg. now rewrite (not_point_eqb _ Hg). }
  intros ->. cbn [negb GeometryType_eqb]. split.
  { intros ->. reflexivity. }
  intros Hf. destruct (features (trajectory_layer.layer self)); [congruence|].
  cbn [negb FeatureAvailability_eqb]. split.
  { intros Hid. rewrite require_field_raises; [reflexivity|].
    now rewrite is_field_valid_any_iff. }
  intros Hid. apply is_field_valid_any_iff in Hid.
  rewrite (require_field_ok _ _ _ _ Hid). cbn [bind]. split.
  { intros Hts. rewrite require_field_raises; [reflexivity|].
    now rewrite is_field_valid_numeric_iff. }
  intros Hts. apply is_field_valid_numeric_iff in Hts.
  rewrite (require_field_ok _ _ _ _ Hts). cbn [bind]. split.
  { intros Hw. rewrite require_field_raises; [reflexivity|].
    now rewrite is_field_valid_numeric_iff. }
  intros Hw. apply is_field_valid_numeric_iff in Hw.
  rewrite (require_field_ok _ _ _ _ Hw). cbn [bind]. split.
  { intros Hl. rewrite require_field_raises; [reflexivity|].
    now rewrite is_field_valid_numeric_iff. }
  intros Hl Hh. apply is_field_valid_numeric_iff in Hl.
  rewrite (require_field_ok _ _ _ _ Hl). cbn [bind].
  rewrite require_field_raises; [reflexivity|].
  now rewrite is_field_valid_numeric_iff.
Qed.

Lemma is_valid_first_failure_witness :
  trajectory_layer.is_valid (sample_attrs empty_line_layer TemporalSeconds)
  = Raise (InvalidLayerException "Layer is not a point layer.").
Proof.
  apply (is_valid_first_failure (sample_attrs empty_line_layer TemporalSeconds)).
  - reflexivity.
  - discriminate.
Defined.

(** X4.  The [is_valid] of [trajectory.py] accepts a layer exactly when it is a
    point layer that has the identifier field and the timestamp field; it
    looks at nothing else.  Every layer that the [is_valid] of
    [trajectory_layer.py] accepts is accepted by it, and not the other way
    round: a point layer without features is accepted by the one and
    rejected by the other. *)
Theorem earlier_is_valid_is_weaker :
  (forall layer idf tsf,
     trajectory.is_valid layer idf tsf = true <->
     geometryType layer = PointGeometry /\
     has_field layer idf /\ has_field layer tsf) /\
  (forall self,
     trajectory_layer.is_valid self = Ok true ->
     trajectory.is_valid (trajectory_layer.layer self)
       (trajectory_layer.id_field self) (trajectory_layer.timestamp_field self)
     = true) /\
  (exists self,
     trajectory.is_valid (trajectory_layer.layer self)
       (trajectory_layer.id_field self) (trajectory_layer.timestamp_field self)
     = true /\
     trajectory_layer.is_valid self
     = Raise (InvalidLayerException "Layer has no features.")).
Proof.
  assert (Hiff : forall layer idf tsf,
            trajectory.is_valid layer idf tsf = true <->
            geometryType layer = PointGeometry /\
            has_field layer idf /\ has_field layer tsf).
  { intros layer idf tsf. unfold trajectory.is_valid.
    rewrite !andb_true_iff, !negb_true_iff, !Z.eqb_neq, !has_field_index.
    split.
    - intros [[Hg Hi] Ht]. repeat split; try assumption.
      now destruct (geometryType layer).
    - intros (-> & Hi & Ht). auto. }
  split; [exact Hiff|]. split.
  - intros self H. apply is_valid_accepts_exactly in H
      as (_ & Hp & _ & Hid & (f & Hf & _) & _).
    apply Hiff. repeat split; try assumption.
    now apply field_named_has_field in Hf.
  - exists (sample_attrs (point_layer []) TemporalSeconds). split; reflexivity.
Qed.

(** *** The constructed object *)

Section Constructed.
Context {O : FeatureOrdering} {I : trajectory_layer.imports}.

Lemma resolve_ok_inv (self self' : trajectory_layer.attrs) :
  trajectory_layer.resolve_timestamp_units self = Ok self' ->
  (trajectory_layer.timestamp_units self <> TemporalUnknownUnit /\ self' = self) \/
  (trajectory_layer.timestamp_units self = TemporalUnknownUnit /\
   (self' = trajectory_layer.set_timestamp_units self TemporalMilliseconds \/
    self' = trajectory_layer.set_timestamp_units self TemporalSeconds)).
Proof.
  unfold trajectory_layer.resolve_timestamp_units.
  destruct (trajectory_layer.timestamp_units self) eqn:Hu; simpl;
    try (intros H; injection H as <-; left; split; [discriminate | reflexivity]).
  intros H. right. split; [reflexivity|].
  apply bind_ok_inv in H as (ts & _ & H).
  apply bind_ok_inv in H as (num & _ & H).
  apply bind_ok_inv in H as (d & _ & H).
  destruct (_ <=? d); injection H as <-; auto.
Qed.

Lemma init_ok_inv (layer : QgsVectorLayer) (idf tsf wf lf hf : string)
  (unit : TemporalUnit) (tl : trajectory_layer.TrajectoryLayer) :
  trajectory_layer.init layer idf tsf wf lf hf unit = Ok tl ->
  trajectory_layer.is_valid (initial_attrs layer idf tsf wf lf hf unit)
  = Ok true /\
  trajectory_layer.resolve_timestamp_units
    (trajectory_layer.set_map_units
       (initial_attrs layer idf tsf wf lf hf unit) (mapUnits layer))
  = Ok (trajectory_layer.self_attrs tl) /\
  trajectory_layer.create_trajectories (trajectory_layer.self_attrs tl)
  = Ok (trajectory_layer.trajectories tl).
Proof.
  rewrite init_unfold. intros H.
  apply bind_ok_inv in H as (valid & Hv & H).
  destruct (is_valid_ok_inv _ _ Hv) as [-> _].
  apply bind_ok_inv in H as (self & Hr & H).
  apply bind_ok_inv in H as (trajs & Hc & H).
  injection H as <-. auto.
Qed.

End Constructed.





(** *** The unit, by the value of the first timestamp *)

Lemma trunc_below_one (q : Q) :
  (q < 1)%Q -> Z.quot (Qnum q) (Z.pos (Qden q)) <= 0.
Proof.
  destruct q as [a b]. unfold Qlt. simpl. intros H.
  destruct (Z.le_gt_cases 0 a) as [Ha | Ha].
  - rewrite Z.quot_small by lia. lia.
  - replace a with (- - a) by lia. rewrite Z.quot_opp_l by lia.
    pose proof (Z.quot_pos (- a) (Z.pos b) ltac:(lia) ltac:(lia)). lia.
Qed.

Lemma trunc_at_least (q : Q) (k : Z) :
  1 <= k ->
  ((inject_Z k <= q)%Q <-> k <= Z.quot (Qnum q) (Z.pos (Qden q))).
Proof.
  destruct q as [a b]. unfold Qle. simpl. intros Hk. split.
  - intros H. assert (Ha : 0 <= a) by nia.
    rewrite Z.quot_div_nonneg by lia.
    apply Z.div_le_lower_bound; lia.
  - intros H. destruct (Z.le_gt_cases 0 a) as [Ha | Ha].
    + rewrite Z.quot_div_nonneg in H by lia.
      pose proof (Z.mul_div_le a (Z.pos b) ltac:(lia)). nia.
    + exfalso. replace a with (- - a) in H by lia.
      rewrite Z.quot_opp_l in H by lia.
      pose proof (Z.quot_pos (- a) (Z.pos b) ltac:(lia) ltac:(lia)). lia.
Qed.

Lemma thirteen_digits (n d : Z) :
  0 < n -> has_decimal_digits n d ->
  (13 <=? d) = (1000000000000 <=? n).
Proof.
  unfold has_decimal_digits. intros Hn [Hlo Hhi].
  destruct (13 <=? d) eqn:Hd; symmetry.
  - apply Z.leb_le in Hd. apply Z.leb_le.
    assert (10 ^ 12 <= 10 ^ (d - 1)) by (apply Z.pow_le_mono_r; lia).
    change (10 ^ 12) with 1000000000000 in *. lia.
  - apply Z.leb_gt in Hd. apply Z.leb_gt.
    assert (10 ^ d <= 10 ^ 12) by (apply Z.pow_le_mono_r; lia).
    change (10 ^ 12) with 1000000000000 in *. lia.
Qed.

(** X7.  When no unit is supplied, the value [q] of the timestamp of the feature
    with id 1 decides what [__init__] does: below 1 it raises the math domain
    error, from 1 up to but not including 10^12 it builds the trajectories
    with the unit seconds, from 10^12 on with the unit milliseconds. *)
Theorem unit_by_first_value (O : FeatureOrdering)
  (I : trajectory_layer.imports) (layer : QgsVectorLayer)
  (idf tsf wf lf hf : string) (f : QgsFeature) (q : Q) :
  trajectory_layer.is_valid
    (initial_attrs layer idf tsf wf lf hf TemporalUnknownUnit) = Ok true ->
  getFeature layer 1 = Some f ->
  attribute layer f tsf = Ok (Num q) ->
  let built_with unit :=
    let self :=
      trajectory_layer.set_timestamp_units
        (trajectory_layer.set_map_units
           (initial_attrs layer idf tsf wf lf hf TemporalUnknownUnit)
           (mapUnits layer)) unit in
    trajectory_layer.init layer idf tsf wf lf hf TemporalUnknownUnit
    = (trajectories <- trajectory_layer.create_trajectories self ;;
       Ok {| trajectory_layer.self_attrs := self;
             trajectory_layer.trajectories := trajectories |}) in
  ((q < 1)%Q ->
   trajectory_layer.init layer idf tsf wf lf hf TemporalUnknownUnit
   = Raise ValueError) /\
  ((1 <= q)%Q -> (q < 1000000000000)%Q -> built_with TemporalSeconds) /\
  ((1000000000000 <= q)%Q -> built_with TemporalMilliseconds).
Proof.
  intros Hv Hf Ha. cbv zeta.
  set (n := Z.quot (Qnum q) (Z.pos (Qden q))).
  assert (Hi : int (Num q) = Ok n) by reflexivity.
  assert (Hpos : 0 < n ->
            trajectory_layer.init layer idf tsf wf lf hf TemporalUnknownUnit
            = (let self :=
                 trajectory_layer.set_timestamp_units
                   (trajectory_layer.set_map_units
                      (initial_attrs layer idf tsf wf lf hf TemporalUnknownUnit)
                      (mapUnits layer))
                   (if 1000000000000 <=? n
                    then TemporalMilliseconds else TemporalSeconds) in
               trajectories <- trajectory_layer.create_trajectories self ;;
               Ok {| trajectory_layer.self_attrs := self;
                     trajectory_layer.trajectories := trajectories |})).
  { intros Hn.
    destruct (resolve_positive
                (trajectory_layer.set_map_units
                   (initial_attrs layer idf tsf wf lf hf TemporalUnknownUnit)
                   (mapUnits layer)) f (Num q) n eq_refl Hf Ha Hi Hn)
      as (d & Hd & Hr).
    rewrite (thirteen_digits n d Hn Hd) in Hr.
    rewrite init_unfold, Hv. simpl bind at 1. rewrite Hr. reflexivity. }
  split; [|split].
  - intros Hq. apply trunc_below_one in Hq. fold n in Hq.
    rewrite init_unfold, Hv. simpl bind at 1.
    rewrite (resolve_nonpositive
               (trajectory_layer.set_map_units
                  (initial_attrs layer idf tsf wf lf hf TemporalUnknownUnit)
                  (mapUnits layer)) f (Num q) n eq_refl Hf Ha Hi Hq).
    reflexivity.
  - intros H1 H2.
    assert (Hn : 1 <= n) by (apply (trunc_at_least q 1); [lia | exact H1]).
    rewrite Hpos by lia.
    destruct (1000000000000 <=? n) eqn:E; [|reflexivity].
    exfalso. apply Z.leb_le in E.
    apply (trunc_at_least q 1000000000000) in E; [|lia].
    apply (Qlt_not_le _ _ H2). exact E.
  - intros H1.
    assert (Hn : 1000000000000 <= n)
      by (apply (trunc_at_least q 1000000000000); [lia | exact H1]).
    rewrite Hpos by lia.
    apply Z.leb_le in Hn. now rewrite Hn.
Qed.

Lemma unit_by_first_value_witness :
  sample_init (O := stable_provider) (I := trajectory_spec.classes)
    layer_fraction TemporalUnknownUnit
  = Raise ValueError.
Proof.
  apply (unit_by_first_value stable_provider trajectory_spec.classes
           layer_fraction "id" "timestamp" "width" "length" "height"
           (sample_feature 1 (pt 0 0) (Num 7) (Num (1 # 2))) (1 # 2)
           eq_refl eq_refl eq_refl).
  reflexivity.
Defined.

(** X8.  When no unit is supplied and the layer has no feature with id 1, the
    lookup of the timestamp raises [KeyError]; when that feature's timestamp
    is NULL, [int] raises [TypeError]. *)
Theorem unit_needs_first_feature (O : FeatureOrdering)
  (I : trajectory_layer.imports) (layer : QgsVectorLayer)
  (idf tsf wf lf hf : string) :
  trajectory_layer.is_valid
    (initial_attrs layer idf tsf wf lf hf TemporalUnknownUnit) = Ok true ->
  (getFeature layer 1 = None ->
   trajectory_layer.init layer idf tsf wf lf hf TemporalUnknownUnit
   = Raise KeyError) /\
  (forall f, getFeature layer 1 = Some f ->
     attribute layer f tsf = Ok NULL ->
     trajectory_layer.init layer idf tsf wf lf hf TemporalUnknownUnit
     = Raise TypeError).
Proof.
  intros Hv. split.
  - intros Hf. rewrite init_unfold, Hv. simpl bind at 1.
    unfold trajectory_layer.resolve_timestamp_units. simpl. now rewrite Hf.
  - intros f Hf Ha. rewrite init_unfold, Hv. simpl bind at 1.
    unfold trajectory_layer.resolve_timestamp_units. simpl. rewrite Hf. simpl.
    rewrite Ha. reflexivity.
Qed.

Lemma unit_needs_first_feature_witness :
  sample_init (O := stable_provider) (I := trajectory_spec.classes)
    layer_without_first TemporalUnknownUnit
  = Raise KeyError.
Proof.
  apply (unit_needs_first_feature stable_provider trajectory_spec.classes
           layer_without_first "id" "timestamp" "width" "length" "height"
           eq_refl).
  reflexivity.
Defined.

(** *** How the records are shared out among the trajectories *)

Lemma distinct_length (l : list QVariant) :
  (List.length (distinct l) <= List.length l)%nat.
Proof.
  induction l as [|v l IH]; simpl; [lia|].
  pose proof (filter_length_le (fun w => negb (QVariant_eqb v w)) (distinct l)).
  lia.
Qed.

Lemma uniqueValues_length (layer : QgsVectorLayer) (idx : Z) :
  (List.length (uniqueValues layer idx) <= List.length (features layer))%nat.
Proof.
  unfold uniqueValues. destruct (_ || _); simpl; [lia|].
  pose proof (distinct_length (map (attribute_at idx) (features layer))).
  now rewrite length_map in H.
Qed.



Section Partition.
Variable a : QgsFeature -> QVariant.

Let sel (v : QVariant) (f : QgsFeature) : bool :=
  match a f, v with
  | Num p, Num q => Qeq_bool p q
  | _, _ => false
  end.

Let owned (f : QgsFeature) : bool :=
  match a f with NULL => false | Num _ => true end.

Lemma sel_eqb (v : QVariant) (f : QgsFeature) :
  sel v f = true -> QVariant_eqb v (a f) = true.
Proof.
  unfold sel. destruct (a f) as [|p], v as [|q]; simpl; try discriminate.
  now rewrite Qeq_bool_comm.
Qed.

Lemma eqb_sel (v : QVariant) (f : QgsFeature) :
  owned f = true -> QVariant_eqb v (a f) = true -> sel v f = true.
Proof.
  unfold sel, owned. destruct (a f) as [|p], v as [|q]; simpl; try discriminate.
  intros _. now rewrite Qeq_bool_comm.
Qed.

Lemma no_owner (f : QgsFeature) (ids : list QVariant) :
  (forall v, In v ids -> sel v f = false) ->
  List.concat (map (fun v => if sel v f then [f] else []) ids) = [].
Proof.
  induction ids as [|v ids IH]; simpl; intros H; [reflexivity|].
  rewrite (H v) by auto. simpl. apply IH. intros w Hw. apply H. auto.
Qed.

Lemma single_owner (f : QgsFeature) (ids : list QVariant) :
  ForallOrdPairs (fun x y => QVariant_eqb x y = false) ids ->
  (exists v, In v ids /\ QVariant_eqb v (a f) = true) ->
  List.concat (map (fun v => if sel v f then [f] else []) ids)
  = if owned f then [f] else [].
Proof.
  destruct (owned f) eqn:Hown.
  - induction 1 as [|v ids Hv _ IH]; intros (w & Hw & Hwf); [contradiction|].
    simpl. destruct (sel v f) eqn:Hs.
    + simpl. f_equal. apply no_owner. intros u Hu.
      destruct (sel u f) eqn:Hu'; [|reflexivity].
      rewrite Forall_forall in Hv. specialize (Hv u Hu).
      apply sel_eqb in Hs, Hu'. rewrite QVariant_eqb_sym in Hu'.
      rewrite (QVariant_eqb_trans _ _ _ Hs Hu') in Hv. discriminate.
    + simpl. apply IH. destruct Hw as [-> | Hw]; [|eauto].
      rewrite (eqb_sel w f Hown Hwf) in Hs. discriminate.
  - intros _ _. apply no_owner. intros v _. unfold sel, owned in *.
    destruct (a f); [reflexivity | discriminate].
Qed.

Lemma concat_map_app_perm {A B : Type} (g h : A -> list B) (l : list A) :
  Permutation (List.concat (map (fun v => g v ++ h v) l))
    (List.concat (map g l) ++ List.concat (map h l)).
Proof.
  induction l as [|v l IH]; simpl; [constructor|].
  rewrite <- !app_assoc. apply Permutation_app_head.
  eapply Permutation_trans; [apply Permutation_app_head, IH|].
  rewrite !app_assoc. apply Permutation_app_tail, Permutation_app_comm.
Qed.

Lemma partition_by_identifier (ids : list QVariant) (fs : list QgsFeature) :
  ForallOrdPairs (fun x y => QVariant_eqb x y = false) ids ->
  (forall f, In f fs -> exists v, In v ids /\ QVariant_eqb v (a f) = true) ->
  Permutation (List.concat (map (fun v => filter (sel v) fs) ids)) (filter owned fs).
Proof.
  intros Hids. induction fs as [|f fs IH]; intros Hcov.
  - simpl. clear. induction ids; simpl; auto.
  - assert (E : map (fun v => filter (sel v) (f :: fs)) ids
              = map (fun v => (if sel v f then [f] else [])
                              ++ filter (sel v) fs) ids).
    { apply map_ext. intros v. simpl. now destruct (sel v f). }
    rewrite E. eapply Permutation_trans; [apply concat_map_app_perm|].
    rewrite (single_owner f ids Hids (Hcov f (or_introl eq_refl))).
    simpl. destruct (owned f); simpl.
    + constructor. apply IH. intros g Hg. apply Hcov. now right.
    + apply IH. intros g Hg. apply Hcov. now right.
Qed.

End Partition.

Lemma concat_map_perm {A B : Type} (g h : A -> list B) (l : list A) :
  (forall v, Permutation (g v) (h v)) ->
  Permutation (List.concat (map g l)) (List.concat (map h l)).
Proof.
  intros H. induction l as [|v l IH]; simpl; [constructor|].
  now apply Permutation_app.
Qed.

Lemma selects_as_match (self : trajectory_layer.attrs) (v : QVariant)
  (f : QgsFeature) :
  0 <= id_idx self ->
  expression_selects (trajectory_layer.layer self)
    (trajectory_layer.id_field self) v f
  = match attribute_at (id_idx self) f, v with
    | Num p, Num q => Qeq_bool p q
    | _, _ => false
    end.
Proof.
  intros H. unfold expression_selects.
  fold (indexOf (fields (trajectory_layer.layer self))
          (trajectory_layer.id_field self)).
  fold (id_idx self).
  destruct (id_idx self <? 0) eqn:E; [apply Z.ltb_lt in E; lia | reflexivity].
Qed.

Lemma built_points_of_all (self : trajectory_layer.attrs) (O : FeatureOrdering)
  (ids : list QVariant) (trajs : list trajectory_spec.Trajectory) :
  Forall2
    (fun v t =>
       trajectory_spec.layer t = self /\
       Forall2 (node_built_from self) (selected self v) (trajectory_spec.nodes t))
    ids trajs ->
  map trajectory_spec.point (List.concat (map trajectory_spec.nodes trajs))
  = map geometry (List.concat (map (selected self) ids)).
Proof.
  induction 1 as [|v t ids trajs [_ Hn] _ IH]; simpl; [reflexivity|].
  rewrite !map_app, IH. f_equal. exact (built_nodes_points self _ _ Hn).
Qed.





(** *** The line layer and the geometry *)

Lemma enumerate_from_nth {A : Type} (l : list A) :
  forall (k : Z) (i : nat),
    nth_error (enumerate_from k l) i
    = option_map (fun a => (k + Z.of_nat i, a)) (nth_error l i).
Proof.
  induction l as [|a l IH]; intros k i.
  - now destruct i.
  - destruct i as [|i]; simpl.
    + now rewrite Z.add_0_r.
    + rewrite IH. destruct (nth_error l i); simpl; [|reflexivity].
      do 2 f_equal. lia.
Qed.

Lemma fold_left_pointwise {A B : Type} (g h : A -> B -> A) (xs : list B) :
  forall a0, (forall a x, g a x = h a x) -> fold_left g xs a0 = fold_left h xs a0.
Proof.
  induction xs as [|x xs IH]; intros a0 H; simpl; [reflexivity|].
  rewrite H. now apply IH.
Qed.

Lemma fold_addFeature {A : Type} (mk : A -> MemoryFeature) (xs : list A) :
  forall l0,
    let r := fold_left (fun l x => addFeature l (mk x)) xs l0 in
    uri r = uri l0 /\ layer_name r = layer_name l0 /\
    memory_fields r = memory_fields l0 /\
    memory_features r = memory_features l0 ++ map mk xs.
Proof.
  induction xs as [|x xs IH]; intros l0; simpl.
  - now rewrite app_nil_r.
  - destruct (IH (addFeature l0 (mk x))) as (Hu & Hn & Hf & Hfs).
    simpl in *. rewrite Hu, Hn, Hf, Hfs, <- app_assoc. auto.
Qed.

(** X12.  [as_line_layer] builds a memory layer in EPSG:3067 with the fields [fid]
    and [average_speed] and one line feature per trajectory, in the order of
    the trajectories: feature [i] (counting from 0) carries the number [i],
    the average speed 0, and the polyline through the positions of the nodes
    of trajectory [i]; every feature has one attribute per field. *)
Theorem as_line_layer_lines (trajectories : list trajectory.Trajectory) :
  let line_layer := trajectory_layer.as_line_layer trajectories in
  uri line_layer = "LineString?crs=3067" /\
  memory_fields line_layer
  = [ {| field_name := "fid"; field_type := QVariantInt |};
      {| field_name := "average_speed"; field_type := QVariantDouble |} ] /\
  List.length (memory_features line_layer) = List.length trajectories /\
  (forall i t,
     nth_error trajectories i = Some t ->
     nth_error (memory_features line_layer) i
     = Some {| memory_attributes := [Num (inject_Z (Z.of_nat i)); Num 0];
               memory_geometry :=
                 fromPolylineXY (map trajectory.point (trajectory.nodes t)) |}) /\
  Forall
    (fun f => List.length (memory_attributes f)
              = List.length (memory_fields line_layer))
    (memory_features line_layer).
Proof.
  cbv zeta. unfold trajectory_layer.as_line_layer.
  set (mk := fun it : Z * trajectory.Trajectory =>
               let (i, trajectory) := it in
               {| memory_attributes :=
                    [Num (inject_Z i); Num (trajectory.average_speed trajectory)];
                  memory_geometry := trajectory.as_geometry trajectory |}).
  match goal with
  | |- context [fold_left ?step ?xs ?l0] =>
      rewrite (fold_left_pointwise step (fun l x => addFeature l (mk x)) xs l0)
        by (intros l [i t]; reflexivity);
      destruct (fold_addFeature mk xs l0) as (Hu & _ & Hf & Hfs)
  end.
  cbv zeta in Hu, Hf, Hfs. rewrite Hu, Hf, Hfs. simpl.
  split; [reflexivity|]. split; [reflexivity|]. split; [|split].
  - rewrite length_map. clear. generalize 0.
    induction trajectories as [|t ts IH]; intros k; simpl; [reflexivity|].
    now rewrite IH.
  - intros i t Ht. rewrite nth_error_map, enumerate_from_nth, Ht. simpl.
    reflexivity.
  - apply Forall_forall. intros f Hf'. apply in_map_iff in Hf' as ([i t] & <- & _).
    reflexivity.
Qed.

(** X13.  Nodes made by [from_coordinates] give the coordinates back: the geometry
    of a trajectory built from a list of coordinates with timestamps is the
    polyline through these coordinates, in order and as many. *)
Theorem coordinates_round_trip (coords : list (Q * Q * Z)) :
  asPolyline
    (trajectory.as_geometry
       (trajectory.init
          (map (fun c => trajectory.from_coordinates (fst (fst c)) (snd (fst c))
                           (snd c)) coords)))
  = map (fun c => {| x := fst (fst c); y := snd (fst c) |}) coords.
Proof.
  unfold trajectory.as_geometry, trajectory.init. simpl.
  rewrite map_map. apply map_ext. intros [[a b] t]. reflexivity.
Qed.
